(** * gobin: webhook registry and event dispatcher (package server)

    A shallow embedding of the webhook handlers and of the dispatcher of the
    gobin server.  Go strings are byte strings ([string]), Go [int] and
    [time.Duration] are [Z] (a Duration counts nanoseconds), [float64] is
    the primitive binary64 float of Rocq.  Code that mutates the server
    (the database, the wait group) or talks to the outside (logging,
    sleeping, HTTP) is written in a state-and-trace monad [M]: every effect
    of the source leaves one event in the trace, in program order. *)

From Stdlib Require Import ZArith NArith List Bool Lia.
From Stdlib Require Import String Ascii DecimalString.
From Stdlib Require Import Floats.PrimFloat Floats.SpecFloat Floats.FloatOps.
From Stdlib Require Import Floats.FloatAxioms.
Import ListNotations.

Open Scope string_scope.
Open Scope list_scope.
Open Scope bool_scope.
Open Scope Z_scope.

(** ** Go strings *)

Module strings.

(** [unicode.ToUpper] on one byte of an ASCII string. *)
Definition upper_byte (c : ascii) : ascii :=
  let n := N_of_ascii c in
  if (N.leb 97 n && N.leb n 122)%bool then ascii_of_N (n - 32) else c.

(** [unicode.ToLower] on one byte of an ASCII string. *)
Definition lower_byte (c : ascii) : ascii :=
  let n := N_of_ascii c in
  if (N.leb 65 n && N.leb n 90)%bool then ascii_of_N (n + 32) else c.

(** [strings.ToUpper].  Bytes below 0x80 are mapped as Go maps them.  A
    byte from 0x80 on is part of a multi-byte rune (or invalid UTF-8) in
    Go and is kept here as it is; Go's result then has a rune outside
    ASCII or fewer runes than bytes, so neither result equals a pure
    ASCII string of the same length as the input, which is the only way
    the source uses [ToUpper]. *)
Fixpoint ToUpper (s : string) : string :=
  match s with
  | EmptyString => EmptyString
  | String c s' => String (upper_byte c) (ToUpper s')
  end.

(** Case-insensitive equality of two byte strings, letter by letter. *)
Fixpoint EqualFold (s t : string) : bool :=
  match s, t with
  | EmptyString, EmptyString => true
  | String c s', String d t' =>
      Ascii.eqb (lower_byte c) (lower_byte d) && EqualFold s' t'
  | _, _ => false
  end.

(** [rev_string acc s] is the reverse of [s] in front of [acc]. *)
Fixpoint rev_string (acc s : string) : string :=
  match s with
  | EmptyString => acc
  | String c s' => rev_string (String c acc) s'
  end.

(** [splitAcc sep s cur] walks [s]; [cur] is the current field, reversed. *)
Fixpoint splitAcc (sep : ascii) (s cur : string) : list string :=
  match s with
  | EmptyString => [rev_string EmptyString cur]
  | String c s' =>
      if Ascii.eqb c sep
      then rev_string EmptyString cur :: splitAcc sep s' EmptyString
      else splitAcc sep s' (String c cur)
  end.

(** [strings.Split(s, sep)] for a one-byte separator: the fields between
    the separators, [n+1] of them for [n] separators ([Split("", ",")] is
    the one-element list of the empty string). *)
Definition Split (s : string) (sep : ascii) : list string :=
  splitAcc sep s EmptyString.

(** [s[lo:]] and [s[lo:hi]] for indices inside the string. *)
Definition from (lo : nat) (s : string) : string :=
  substring lo (String.length s - lo) s.

Definition slice (lo hi : nat) (s : string) : string :=
  substring lo (hi - lo) s.

(** [len(s)] as a Go int. *)
Definition len (s : string) : Z := Z.of_nat (String.length s).

End strings.

Module slices.
(** [slices.Contains] on a slice of strings. *)
Definition Contains (l : list string) (x : string) : bool :=
  existsb (String.eqb x) l.
End slices.

(** ** Errors *)

(** The error values of the file, [sql.ErrNoRows], errors wrapped with
    [%w], the constructors of package httperr, and any other error. *)
Inductive error : Type :=
| ErrWebhookNotFound
| ErrMissingWebhookSecret
| ErrMissingWebhookURL
| ErrMissingWebhookEvents
| ErrMissingURLOrSecretOrEvents
| ErrPermissionDenied (permission : string)
| sql_ErrNoRows
| ErrWrap (msg : string) (inner : error)
| ErrOther (msg : string)
| BadRequest (err : error)
| Forbidden (err : error)
| NotFound (err : error).

(** A Go result pair [(v, err)]: the value counts only when [err == nil]. *)
Inductive Result (A : Type) : Type :=
| Ok (v : A)
| Err (err : error).
Arguments Ok {A} v.
Arguments Err {A} err.

Module errors.
(** [errors.Is(err, sql.ErrNoRows)]: [err] is the target or wraps it. *)
Fixpoint Is_ErrNoRows (e : error) : bool :=
  match e with
  | sql_ErrNoRows => true
  | ErrWrap _ inner => Is_ErrNoRows inner
  | _ => false
  end.
End errors.

(** ** Contexts *)

Definition Duration := Z.

(** What the code builds from [context] and the tracer.  [RequestCtx] is the
    context of an inbound HTTP request: cancelled when the client goes
    away, with the deadline the router gave it, if any. *)
Inductive Context : Type :=
| Background
| RequestCtx (deadline : option Duration)
| WithoutCancel (parent : Context)
| WithTimeout (parent : Context) (timeout : Duration)
| WithSpan (parent : Context) (spanName : string).

(** [ctx.Deadline()], as a bound counted from the creation of the context:
    [WithoutCancel] has none, [WithTimeout] has the earlier of its own and
    its parent's, a span keeps its parent's. *)
Fixpoint Deadline (ctx : Context) : option Duration :=
  match ctx with
  | Background => None
  | RequestCtx d => d
  | WithoutCancel _ => None
  | WithTimeout p d =>
      match Deadline p with
      | Some d' => Some (Z.min d' d)
      | None => Some d
      end
  | WithSpan p _ => Deadline p
  end.

(** Whether cancelling the inbound request cancels [ctx]. *)
Fixpoint cancelledWithRequest (ctx : Context) : bool :=
  match ctx with
  | Background => false
  | RequestCtx _ => true
  | WithoutCancel _ => false
  | WithTimeout p _ => cancelledWithRequest p
  | WithSpan p _ => cancelledWithRequest p
  end.

(** ** float64 *)

Module float64.
Definition minInt64 : Z := - 2 ^ 63.
Definition maxInt64 : Z := 2 ^ 63 - 1.

(** [float64(n)] for an integer [n]: rounded to the nearest binary64. *)
Definition of_int (n : Z) : float :=
  SF2Prim (binary_normalize prec emax n 0 false).

(** [int64(f)], the conversion behind [time.Duration(f)]: the fraction is
    dropped.  For NaN, the infinities and values outside int64 the Go
    specification leaves the result to the implementation; this is the
    amd64 one (the smallest int64). *)
Definition to_int64 (f : float) : Z :=
  match Prim2SF f with
  | S754_zero _ => 0
  | S754_finite sign m e =>
      let v := if 0 <=? e then Z.pos m * 2 ^ e else Z.pos m / 2 ^ (- e) in
      let r := if sign then - v else v in
      if (minInt64 <=? r) && (r <=? maxInt64) then r else minInt64
  | S754_infinity _ => minInt64
  | S754_nan => minInt64
  end.
End float64.

Module time.
Definition Nanosecond : Duration := 1.
Definition Millisecond : Duration := 1000000.
Definition Time := Z.
End time.

(** ** Data of the webhook file *)

Record WebhookCreateRequest : Type := {
  wcURL : string;
  wcSecret : string;
  wcEvents : list string
}.

Record WebhookUpdateRequest : Type := {
  wuURL : string;
  wuSecret : string;
  wuEvents : list string
}.

Record WebhookResponse : Type := {
  rID : string;
  rDocumentKey : string;
  rURL : string;
  rSecret : string;
  rEvents : list string
}.

Record WebhookDocumentFile : Type := {
  fName : string;
  fContent : string;
  fLanguage : string;
  fExpiresAt : option time.Time
}.

Record WebhookDocument : Type := {
  Key : string;
  Version : Z;
  Files : list WebhookDocumentFile
}.

Record WebhookEventRequest : Type := {
  WebhookID : string;
  Event : string;
  CreatedAt : time.Time;
  Document : WebhookDocument
}.

Definition WebhookEventUpdate : string := "update".
Definition WebhookEventDelete : string := "delete".

(** ** Package database, as the file uses it *)

Module database.

(** A row of the webhook table; [Events] is the comma-joined list. *)
Record Webhook : Type := {
  ID : string;
  DocumentID : string;
  URL : string;
  Secret : string;
  Events : string
}.

(** The calls the file makes on [s.db], indexed by what they return. *)
Inductive Call : Type -> Type :=
| CreateWebhook (documentID url secret : string) (events : list string)
  : Call Webhook
| GetWebhook (documentID webhookID secret : string) : Call Webhook
| UpdateWebhook (documentID webhookID secret newURL newSecret : string)
                (newEvents : list string) : Call Webhook
| DeleteWebhook (documentID webhookID secret : string) : Call unit
| GetWebhooksByDocumentID (documentID : string) : Call (list Webhook)
| GetAndDeleteWebhooksByDocumentID (documentID : string)
  : Call (list Webhook).

(** A database over a store [St]: each call, made under a context, gives a
    result and the store after it. *)
Definition DB (St : Type) : Type :=
  forall A : Type, Call A -> Context -> St -> Result A * St.

End database.

(** ** Package flags and the permission bits *)

Definition Permissions := Z.

Module flags.
(** Modelled from the spec: package internal/flags is not embedded here.
    [Has(set, perm)] tests the named bits of the flag
    set and [Misses] is its negation, used as a guard clause. *)
Definition Has (set perm : Permissions) : bool :=
  Z.land set perm =? perm.

(** Modelled from the spec: [Misses] is the exact negation of [Has]. *)
Definition Misses (set perm : Permissions) : bool :=
  negb (Has set perm).
End flags.

Record Claims : Type := {
  ClaimPermissions : Permissions
}.

(** ** Configuration, HTTP, the server *)

(** [s.cfg.Webhook], with the field types the uses in the file force. *)
Record WebhookConfig : Type := {
  Enabled : bool;
  Timeout : Duration;
  MaxTries : Z;
  Backoff : Duration;
  BackoffFactor : float;
  MaxBackoff : Duration
}.

Module http.

(** An outbound request, as [http.NewRequestWithContext] and
    [Header.Add] make it.  [Body] says what the buffer under the request
    holds when the request is built: the JSON encoding of this value.  The
    field does not follow the buffer afterwards: a round trip that
    completes reads the buffer to its end and a later [Do] on the request
    does not rewind it, so a try after an answered one finds it empty.
    What a try finds is part of what [client_Do] answers for its index. *)
Record OutRequest : Type := {
  Ctx : Context;
  Method : string;
  Url : string;
  Header : list (string * string);
  Body : WebhookEventRequest
}.

Record Response : Type := {
  StatusCode : Z;
  Status : string
}.

Definition MethodPost : string := "POST".

(** [rq.Header.Add(key, value)]. *)
Definition Header_Add (rq : OutRequest) (key value : string) : OutRequest :=
  {| Ctx := Ctx rq; Method := Method rq; Url := Url rq;
     Header := Header rq ++ [(key, value)]; Body := Body rq |}.

(** An inbound request as the handlers read it: the two URL parameters,
    the Authorization header ([Header.Get] gives the empty string when it
    is absent), its context, the claims of its token, and what decoding
    its JSON body into the three fields url, secret and events gives. *)
Record Request : Type := {
  documentID : string;
  webhookID : string;
  Authorization : string;
  Context_ : Context;
  GetClaims : Claims;
  DecodedBody : Result (string * string * list string)
}.

End http.

Module ezhttp.
Definition HeaderContentType : string := "Content-Type".
Definition HeaderUserAgent : string := "User-Agent".
Definition HeaderAuthorization : string := "Authorization".
Definition ContentTypeJSON : string := "application/json".
End ezhttp.

(** What a handler writes: [s.error(w, r, err)] or [s.ok(w, r, v)]. *)
Inductive Reply : Type :=
| ReplyError (err : error)
| ReplyOk (v : option WebhookResponse).

Inductive Level : Type := LevelDebug | LevelError.

(** One effect of the code. *)
Inductive Effect : Type :=
| EvWaitGroupAdd (delta : Z)
| EvWaitGroupDone
| EvDB (A : Type) (call : database.Call A) (ctx : Context)
| EvLog (level : Level) (msg : string)
| EvSpanError (msg : string)
| EvSpanEnd (spanName : string)
| EvSleep (d : Duration)
| EvDo (rq : http.OutRequest) (try : Z).
Arguments EvDB {A} call ctx.

(** The server, for a database over the store [St], and what it reaches of
    its environment: the HTTP client ([s.client.Do], asked with the request
    and the index of the try, as one request value is sent again on every
    try), the error of the JSON encoder on a value, if it has one, the URL
    check of [http.NewRequestWithContext], the clock, and the Webhook bit
    of the permission flags, a constant of the package. *)
Record Server (St : Type) : Type := {
  cfg : WebhookConfig;
  db : database.DB St;
  version : string;
  client_Do : http.OutRequest -> Z -> Result http.Response;
  json_EncodeError : WebhookEventRequest -> option error;
  url_Valid : string -> bool;
  time_Now : time.Time;
  PermissionWebhook : Permissions
}.
Arguments cfg {St} _.
Arguments db {St} _ _ _ _ _.
Arguments version {St} _.
Arguments client_Do {St} _ _ _.
Arguments json_EncodeError {St} _ _.
Arguments url_Valid {St} _ _.
Arguments time_Now {St} _.
Arguments PermissionWebhook {St} _.

(** The mutable part of the server: the store of the database and the
    counter of [s.webhookWaitGroup]. *)
Record State (St : Type) : Type := {
  store : St;
  webhookWaitGroup : Z
}.
Arguments store {St} _.
Arguments webhookWaitGroup {St} _.
Arguments Build_State {St} _ _.

(** ** The monad of the code: state and trace *)

Definition M (St A : Type) : Type := State St -> A * State St * list Effect.

Definition ret {St A} (a : A) : M St A := fun st => (a, st, []).

Definition bind {St A B} (m : M St A) (k : A -> M St B) : M St B :=
  fun st =>
    let '(a, st1, t1) := m st in
    let '(b, st2, t2) := k a st1 in
    (b, st2, t1 ++ t2).

Notation "x <- m ;; k" := (bind m (fun x => k))
  (at level 61, m at next level, right associativity).
Notation "m ;; k" := (bind m (fun _ => k))
  (at level 61, right associativity).

Definition emit {St} (e : Effect) : M St unit := fun st => (tt, st, [e]).

(** [defer f()] at the top of a function body: [f] runs when the body is
    left, on every return path. *)
Definition defer {St A} (f : M St unit) (body : M St A) : M St A :=
  a <- body ;; f ;; ret a.

(** [go f()].  The goroutines of this file share nothing but the database
    and the wait groups, so the trace records the schedule in which a
    goroutine runs to its end where it is started. *)
Definition go {St} (f : M St unit) : M St unit := f.

(** What running [m] from [st] returns, the state it ends in, and the
    effects it had. *)
Definition result {St A} (m : M St A) (st : State St) : A :=
  fst (fst (m st)).
Definition final {St A} (m : M St A) (st : State St) : State St :=
  snd (fst (m st)).
Definition trace {St A} (m : M St A) (st : State St) : list Effect :=
  snd (m st).

Definition slog {St} (level : Level) (msg : string) : M St unit :=
  emit (EvLog level msg).

Definition span_SetStatusError {St} (msg : string) : M St unit :=
  emit (EvSpanError msg).

Definition span_End {St} (spanName : string) : M St unit :=
  emit (EvSpanEnd spanName).

Definition time_Sleep {St} (d : Duration) : M St unit := emit (EvSleep d).

Definition WaitGroup_Add {St} (delta : Z) : M St unit :=
  fun st =>
    (tt, Build_State (store st) (webhookWaitGroup st + delta),
     [EvWaitGroupAdd delta]).

Definition WaitGroup_Done {St} : M St unit :=
  fun st =>
    (tt, Build_State (store st) (webhookWaitGroup st - 1), [EvWaitGroupDone]).

(** A call on [s.db]. *)
Definition db_call {St A} (s : Server St) (call : database.Call A)
    (ctx : Context) : M St (Result A) :=
  fun st =>
    let '(r, store') := db s A call ctx (store st) in
    (r, Build_State store' (webhookWaitGroup st), [EvDB call ctx]).

(** ** The dispatcher *)

Section Dispatcher.

Context {St : Type} (s : Server St).

(** [http.NewRequestWithContext(ctx, method, url, body)]: fails on a URL
    that does not parse. *)
Definition http_NewRequestWithContext (ctx : Context) (method url : string)
    (buff : WebhookEventRequest) : Result http.OutRequest :=
  if url_Valid s url
  then Ok {| http.Ctx := ctx; http.Method := method; http.Url := url;
             http.Header := []; http.Body := buff |}
  else Err (ErrOther "parse url").

(** Line 176: [time.Duration(BackoffFactor * float64(Backoff) * float64(i))]. *)
Definition rawBackoff (i : Z) : Duration :=
  float64.to_int64
    (PrimFloat.mul
       (PrimFloat.mul (BackoffFactor (cfg s))
                      (float64.of_int (Backoff (cfg s))))
       (float64.of_int i)).

(** Lines 176-183: the pause in front of try [i]. *)
Definition sleepBackoff (i : Z) : M St unit :=
  let backoff := rawBackoff i in
  if time.Nanosecond <? backoff then
    let backoff :=
      if MaxBackoff (cfg s) <? backoff then MaxBackoff (cfg s) else backoff in
    slog LevelDebug "sleeping backoff" ;;
    time_Sleep backoff
  else ret tt.

(** Lines 175-198, [for i := 0; i < MaxTries; i++]: [n] is the number of
    tries left, [i] the index of the next one.  [true] is the [return] of
    line 197, [false] leaving the loop at its end. *)
Fixpoint tries (n : nat) (i : Z) (rq : http.OutRequest) : M St bool :=
  match n with
  | O => ret false
  | Datatypes.S n' =>
      sleepBackoff i ;;
      emit (EvDo rq i) ;;
      match client_Do s rq i with
      | Err _ =>
          slog LevelDebug "failed to execute request" ;;
          tries n' (i + 1) rq
      | Ok rs =>
          if (http.StatusCode rs <? 200) || (300 <=? http.StatusCode rs)
          then slog LevelDebug "invalid status code" ;;
               tries n' (i + 1) rq
          else slog LevelDebug "successfully executed webhook" ;;
               ret true
      end
  end.

Definition executeWebhook (ctx : Context) (url secret : string)
    (request : WebhookEventRequest) : M St unit :=
  let ctx := WithSpan ctx "executeWebhook" in
  defer (span_End "executeWebhook")
    (slog LevelDebug "emitting webhook" ;;
     match json_EncodeError s request with
     | Some _ =>
         span_SetStatusError "failed to encode document" ;;
         slog LevelError "failed to encode document"
     | None =>
         let buff := request in
         match http_NewRequestWithContext ctx http.MethodPost url buff with
         | Err _ =>
             span_SetStatusError "failed to create request" ;;
             slog LevelError "failed to create request"
         | Ok rq =>
             let rq := http.Header_Add rq ezhttp.HeaderContentType
                         ezhttp.ContentTypeJSON in
             let rq := http.Header_Add rq ezhttp.HeaderUserAgent
                         ("gobin/" ++ version s)%string in
             let rq := http.Header_Add rq ezhttp.HeaderAuthorization
                         ("Secret " ++ secret)%string in
             sent <- tries (Z.to_nat (MaxTries (cfg s))) 0 rq ;;
             if sent then ret tt
             else span_SetStatusError "failed to execute webhook" ;;
                  slog LevelError "failed to execute webhook"
         end
     end).

(** Line 125: the webhook is subscribed to [event]. *)
Definition subscribed (webhook : database.Webhook) (event : string) : bool :=
  slices.Contains (strings.Split (database.Events webhook) ",") event.

(** Lines 124-139: one goroutine for each subscribed webhook. *)
Fixpoint deliverAll (ctx : Context) (event : string)
    (document : WebhookDocument) (now : time.Time)
    (webhooks : list database.Webhook) : M St unit :=
  match webhooks with
  | [] => ret tt
  | webhook :: rest =>
      (if negb (subscribed webhook event) then ret tt
       else go (executeWebhook ctx (database.URL webhook)
                  (database.Secret webhook)
                  {| WebhookID := database.ID webhook;
                     Event := event;
                     CreatedAt := now;
                     Document := document |})) ;;
      deliverAll ctx event document now rest
  end.

Definition executeWebhooks (ctx : Context) (event : string)
    (document : WebhookDocument) : M St unit :=
  defer WaitGroup_Done
    (let dbCtx := WithTimeout ctx (Timeout (cfg s)) in
     r <- (if String.eqb event WebhookEventDelete
           then db_call s
                  (database.GetAndDeleteWebhooksByDocumentID (Key document))
                  dbCtx
           else db_call s
                  (database.GetWebhooksByDocumentID (Key document)) dbCtx) ;;
     match r with
     | Err _ => slog LevelError "failed to get webhooks by document id"
     | Ok webhooks =>
         if Z.of_nat (List.length webhooks) =? 0 then ret tt
         else
           deliverAll ctx event document (time_Now s) webhooks ;;
           slog LevelDebug "finished emitting webhooks"
     end).

Definition ExecuteWebhooks (ctx : Context) (event : string)
    (document : WebhookDocument) : M St unit :=
  if negb (Enabled (cfg s)) then ret tt
  else
    WaitGroup_Add 1 ;;
    let ctx := WithSpan (WithoutCancel ctx) "executeWebhooks" in
    go (defer (span_End "executeWebhooks")
          (executeWebhooks ctx event document)).

End Dispatcher.

(** ** The registry handlers *)

(** Lines 339-345. *)
Definition GetWebhookSecret (r : http.Request) : string :=
  let secretStr := http.Authorization r in
  if (7 <? strings.len secretStr)
     && String.eqb (strings.ToUpper (strings.slice 0 6 secretStr)) "SECRET"
  then strings.from 7 secretStr
  else "".

(** [json.NewDecoder(r.Body).Decode(&webhookCreate)]. *)
Definition decodeCreate (r : http.Request) : Result WebhookCreateRequest :=
  match http.DecodedBody r with
  | Ok (url, secret, events) =>
      Ok {| wcURL := url; wcSecret := secret; wcEvents := events |}
  | Err err => Err err
  end.

(** [json.NewDecoder(r.Body).Decode(&webhookUpdate)]. *)
Definition decodeUpdate (r : http.Request) : Result WebhookUpdateRequest :=
  match http.DecodedBody r with
  | Ok (url, secret, events) =>
      Ok {| wuURL := url; wuSecret := secret; wuEvents := events |}
  | Err err => Err err
  end.

(** The [WebhookResponse] literal the three handlers build from a row. *)
Definition webhookResponse (webhook : database.Webhook) : WebhookResponse :=
  {| rID := database.ID webhook;
     rDocumentKey := database.DocumentID webhook;
     rURL := database.URL webhook;
     rSecret := database.Secret webhook;
     rEvents := strings.Split (database.Events webhook) "," |}.

Section Registry.

Context {St : Type} (s : Server St).

Definition s_error (err : error) : M St Reply := ret (ReplyError err).
Definition s_ok (v : option WebhookResponse) : M St Reply := ret (ReplyOk v).

Definition PostDocumentWebhook (r : http.Request) : M St Reply :=
  let documentID := http.documentID r in
  match decodeCreate r with
  | Err err => s_error (BadRequest err)
  | Ok webhookCreate =>
      if String.eqb (wcURL webhookCreate) "" then
        s_error (BadRequest ErrMissingWebhookURL)
      else if String.eqb (wcSecret webhookCreate) "" then
        s_error (BadRequest ErrMissingWebhookSecret)
      else if Z.of_nat (List.length (wcEvents webhookCreate)) =? 0 then
        s_error (BadRequest ErrMissingWebhookEvents)
      else
        let claims := http.GetClaims r in
        if flags.Misses (ClaimPermissions claims) (PermissionWebhook s) then
          s_error (Forbidden (ErrPermissionDenied "webhook"))
        else
          res <- db_call s
                   (database.CreateWebhook documentID (wcURL webhookCreate)
                      (wcSecret webhookCreate) (wcEvents webhookCreate))
                   (http.Context_ r) ;;
          match res with
          | Err err => s_error err
          | Ok webhook => s_ok (Some (webhookResponse webhook))
          end
  end.

Definition GetDocumentWebhook (r : http.Request) : M St Reply :=
  let documentID := http.documentID r in
  let webhookID := http.webhookID r in
  let secret := GetWebhookSecret r in
  if String.eqb secret "" then
    s_error (BadRequest ErrMissingWebhookSecret)
  else
    res <- db_call s (database.GetWebhook documentID webhookID secret)
             (http.Context_ r) ;;
    match res with
    | Err err =>
        if errors.Is_ErrNoRows err
        then s_error (NotFound ErrWebhookNotFound)
        else s_error err
    | Ok webhook => s_ok (Some (webhookResponse webhook))
    end.

Definition PatchDocumentWebhook (r : http.Request) : M St Reply :=
  let documentID := http.documentID r in
  let webhookID := http.webhookID r in
  let secret := GetWebhookSecret r in
  if String.eqb secret "" then
    s_error (BadRequest ErrMissingWebhookSecret)
  else
    match decodeUpdate r with
    | Err err => s_error (BadRequest err)
    | Ok webhookUpdate =>
        if String.eqb (wuURL webhookUpdate) ""
           && String.eqb (wuSecret webhookUpdate) ""
           && (Z.of_nat (List.length (wuEvents webhookUpdate)) =? 0)
        then s_error (BadRequest ErrMissingURLOrSecretOrEvents)
        else
          res <- db_call s
                   (database.UpdateWebhook documentID webhookID secret
                      (wuURL webhookUpdate) (wuSecret webhookUpdate)
                      (wuEvents webhookUpdate))
                   (http.Context_ r) ;;
          match res with
          | Err err =>
              if errors.Is_ErrNoRows err
              then s_error (NotFound ErrWebhookNotFound)
              else s_error err
          | Ok webhook => s_ok (Some (webhookResponse webhook))
          end
    end.

Definition DeleteDocumentWebhook (r : http.Request) : M St Reply :=
  let documentID := http.documentID r in
  let webhookID := http.webhookID r in
  let secret := GetWebhookSecret r in
  if String.eqb secret "" then
    s_error (BadRequest ErrMissingWebhookSecret)
  else
    res <- db_call s (database.DeleteWebhook documentID webhookID secret)
             (http.Context_ r) ;;
    match res with
    | Err err =>
        if errors.Is_ErrNoRows err
        then s_error (NotFound ErrWebhookNotFound)
        else s_error err
    | Ok _ => s_ok None
    end.

(** The three handlers that take the secret of the webhook. *)
Definition secretHandlers : list (http.Request -> M St Reply) :=
  [GetDocumentWebhook; PatchDocumentWebhook; DeleteDocumentWebhook].

End Registry.

(** ** A database following the spec *)

Module memdb.

(** Modelled from the spec: package server/database is not embedded
    here.  The spec asks of persistence the lookup of the
    webhooks of a document, the atomic get-and-delete of them, and
    create, read, update and delete of webhook records keyed by
    (document, webhook id, secret), a call that matches no record
    reporting no rows.  The store is the table of rows, the counter the
    generated ids come from, and the failure, if any, every call meets
    while persistence is down. *)
Record Store : Type := {
  rows : list database.Webhook;
  nextID : nat;
  down : option error
}.

(** Modelled from the spec: a record is matched by the triple of its
    document, its id and its secret. *)
Definition keyed (documentID webhookID secret : string)
    (w : database.Webhook) : bool :=
  String.eqb (database.DocumentID w) documentID
  && String.eqb (database.ID w) webhookID
  && String.eqb (database.Secret w) secret.

(** Modelled from the spec: the rows of a document. *)
Definition ofDocument (documentID : string) (w : database.Webhook) : bool :=
  String.eqb (database.DocumentID w) documentID.

(** The row is the webhook [webhookID] of the document. *)
Definition identified (documentID webhookID : string)
    (w : database.Webhook) : bool :=
  String.eqb (database.DocumentID w) documentID
  && String.eqb (database.ID w) webhookID.

(** Modelled from the spec: the id of a webhook is generated by the
    server; here it is the decimal of a counter. *)
Definition newID (n : nat) : string :=
  NilEmpty.string_of_uint (Nat.to_uint n).

(** Modelled from the spec: the partial update; an empty field keeps the
    stored value. *)
Definition patch (newURL newSecret : string) (newEvents : list string)
    (w : database.Webhook) : database.Webhook :=
  {| database.ID := database.ID w;
     database.DocumentID := database.DocumentID w;
     database.URL :=
       if String.eqb newURL "" then database.URL w else newURL;
     database.Secret :=
       if String.eqb newSecret "" then database.Secret w else newSecret;
     database.Events :=
       match newEvents with
       | [] => database.Events w
       | _ => String.concat "," newEvents
       end |}.

(** Modelled from the spec: the calls of the registry (section 4.2), each
    one step on the store, so that get-and-delete is atomic. *)
Definition exec (A : Type) (call : database.Call A) (ctx : Context)
    (st : Store) : Result A * Store :=
  match down st with
  | Some err => (Err err, st)
  | None =>
      match call in database.Call T return Result T * Store with
      | database.CreateWebhook documentID url secret events =>
          let w := {| database.ID := newID (nextID st);
                      database.DocumentID := documentID;
                      database.URL := url;
                      database.Secret := secret;
                      database.Events := String.concat "," events |} in
          (Ok w, {| rows := rows st ++ [w];
                    nextID := Datatypes.S (nextID st);
                    down := None |})
      | database.GetWebhook documentID webhookID secret =>
          match find (keyed documentID webhookID secret) (rows st) with
          | Some w => (Ok w, st)
          | None => (Err sql_ErrNoRows, st)
          end
      | database.UpdateWebhook documentID webhookID secret
                               newURL newSecret newEvents =>
          match find (keyed documentID webhookID secret) (rows st) with
          | Some w =>
              (Ok (patch newURL newSecret newEvents w),
               {| rows :=
                    map (fun w' =>
                           if keyed documentID webhookID secret w'
                           then patch newURL newSecret newEvents w'
                           else w') (rows st);
                  nextID := nextID st;
                  down := None |})
          | None => (Err sql_ErrNoRows, st)
          end
      | database.DeleteWebhook documentID webhookID secret =>
          match find (keyed documentID webhookID secret) (rows st) with
          | Some _ =>
              (Ok tt,
               {| rows :=
                    filter (fun w' =>
                              negb (keyed documentID webhookID secret w'))
                           (rows st);
                  nextID := nextID st;
                  down := None |})
          | None => (Err sql_ErrNoRows, st)
          end
      | database.GetWebhooksByDocumentID documentID =>
          (Ok (filter (ofDocument documentID) (rows st)), st)
      | database.GetAndDeleteWebhooksByDocumentID documentID =>
          (Ok (filter (ofDocument documentID) (rows st)),
           {| rows :=
                filter (fun w' => negb (ofDocument documentID w')) (rows st);
              nextID := nextID st;
              down := None |})
      end
  end.

(** The server [s] with this database in the place of its own. *)
Definition on {St : Type} (s : Server St) : Server Store :=
  {| cfg := cfg s;
     db := exec;
     version := version s;
     client_Do := client_Do s;
     json_EncodeError := json_EncodeError s;
     url_Valid := url_Valid s;
     time_Now := time_Now s;
     PermissionWebhook := PermissionWebhook s |}.

Definition up (ws : list database.Webhook) (n : nat) : Store :=
  {| rows := ws; nextID := n; down := None |}.

End memdb.

(** ** Reading a trace *)

(** What a subscriber's endpoint can observe of a delivery: the pauses and
    the tries. *)
Inductive Tick : Type :=
| TickSleep (d : Duration)
| TickTry (i : Z).

Definition tickOf (e : Effect) : list Tick :=
  match e with
  | EvSleep d => [TickSleep d]
  | EvDo _ i => [TickTry i]
  | _ => []
  end.

Definition timeline (t : list Effect) : list Tick := flat_map tickOf t.

(** The requests sent, one entry for each try. *)
Definition requestsOf (t : list Effect) : list http.OutRequest :=
  flat_map (fun e => match e with EvDo rq _ => [rq] | _ => [] end) t.

(** The indices of the tries, in the order they were made. *)
Definition attemptsOf (t : list Effect) : list Z :=
  flat_map (fun e => match e with EvDo _ i => [i] | _ => [] end) t.

Definition errorLogs (t : list Effect) : list string :=
  flat_map (fun e => match e with EvLog LevelError m => [m] | _ => [] end) t.

(** The calls on persistence. *)
Inductive CallKind : Type :=
| PlainLookup (documentID : string)
| AtomicGetAndDelete (documentID : string)
| RecordCall.

Definition kindOf {A} (c : database.Call A) : CallKind :=
  match c with
  | database.GetWebhooksByDocumentID d => PlainLookup d
  | database.GetAndDeleteWebhooksByDocumentID d => AtomicGetAndDelete d
  | _ => RecordCall
  end.

Definition callsOf (t : list Effect) : list (CallKind * Context) :=
  flat_map (fun e => match e with
                     | EvDB c ctx => [(kindOf c, ctx)]
                     | _ => []
                     end) t.

(** The wait group: the sum of the [Add]s and the number of [Done]s. *)
Definition addsOf (t : list Effect) : Z :=
  fold_right (fun e n => match e with EvWaitGroupAdd d => d + n | _ => n end)
             0 t.

Definition donesOf (t : list Effect) : Z :=
  fold_right (fun e n => match e with EvWaitGroupDone => 1 + n | _ => n end)
             0 t.

(** The steps of [s.webhookWaitGroup], in order. *)
Definition isWaitGroup (e : Effect) : bool :=
  match e with
  | EvWaitGroupAdd _ | EvWaitGroupDone => true
  | _ => false
  end.

Definition waitGroupSteps (t : list Effect) : list Effect :=
  filter isWaitGroup t.

(** Every try of the trace is sent under a context with a deadline. *)
Definition deadlineOnEveryTry (t : list Effect) : Prop :=
  forall rq i, In (EvDo rq i) t -> exists d, Deadline (http.Ctx rq) = Some d.

(** An effect of a delivery task: a log line, a span call, a pause or a
    try; not a call on the database and not a step of the wait group. *)
Definition ofDelivery (e : Effect) : bool :=
  match e with
  | EvLog _ _ | EvSpanError _ | EvSpanEnd _ | EvSleep _ | EvDo _ _ => true
  | EvWaitGroupAdd _ | EvWaitGroupDone | EvDB _ _ => false
  end.

(** ** The retry policy in the words of the spec *)

(** A try succeeds on a response with a status in 2xx; a transport error
    and any other status are failures. *)
Definition is2xx (r : Result http.Response) : bool :=
  match r with
  | Ok rs => (200 <=? http.StatusCode rs) && (http.StatusCode rs <? 300)
  | Err _ => false
  end.

(** The indices [i, i+1, ..., i+n-1]. *)
Fixpoint indices (n : nat) (i : Z) : list Z :=
  match n with
  | O => []
  | Datatypes.S n' => i :: indices n' (i + 1)
  end.

(** The elements of [l] up to the first one satisfying [p], that one
    included. *)
Fixpoint throughFirst {A} (p : A -> bool) (l : list A) : list A :=
  match l with
  | [] => []
  | x :: l' => if p x then [x] else x :: throughFirst p l'
  end.

Section Policy.

Context {St : Type} (s : Server St).

Definition succeeds (rq : http.OutRequest) (i : Z) : bool :=
  is2xx (client_Do s rq i).

(** The tries made for a request: in order from 0, at most [MaxTries],
    none after the first success. *)
Definition triesMade (rq : http.OutRequest) : list Z :=
  throughFirst (succeeds rq) (indices (Z.to_nat (MaxTries (cfg s))) 0).

(** What the code's pause in front of try [i] shows on the timeline: a
    sleep of the capped [rawBackoff], and none at all when [rawBackoff] is
    not above a nanosecond. *)
Definition delayBefore (i : Z) : list Tick :=
  if rawBackoff s i <=? time.Nanosecond then []
  else [TickSleep (Z.min (MaxBackoff (cfg s)) (rawBackoff s i))].

(** The effects of one turn of the loop: the pause, the try, the log
    line on its outcome. *)
Definition pause (i : Z) : list Effect :=
  if time.Nanosecond <? rawBackoff s i
  then [EvLog LevelDebug "sleeping backoff";
        EvSleep (Z.min (MaxBackoff (cfg s)) (rawBackoff s i))]
  else [].

Definition turn (rq : http.OutRequest) (i : Z) : list Effect :=
  pause i
  ++ [EvDo rq i;
      EvLog LevelDebug
        match client_Do s rq i with
        | Err _ => "failed to execute request"
        | Ok _ => if succeeds rq i then "successfully executed webhook"
                  else "invalid status code"
        end].

(** The request [executeWebhook] sends for a webhook. *)
Definition requestFor (ctx : Context) (url secret : string)
    (request : WebhookEventRequest) : http.OutRequest :=
  {| http.Ctx := WithSpan ctx "executeWebhook";
     http.Method := "POST";
     http.Url := url;
     http.Header := [("Content-Type", "application/json");
                     ("User-Agent", ("gobin/" ++ version s)%string);
                     ("Authorization", ("Secret " ++ secret)%string)];
     http.Body := request |}.

Definition delivered (rq : http.OutRequest) : bool :=
  existsb (succeeds rq) (indices (Z.to_nat (MaxTries (cfg s))) 0).

(** The trace of one delivery task. *)
Definition delivery (ctx : Context) (url secret : string)
    (request : WebhookEventRequest) : list Effect :=
  let rq := requestFor ctx url secret request in
  EvLog LevelDebug "emitting webhook"
  :: match json_EncodeError s request with
     | Some _ => [EvSpanError "failed to encode document";
                  EvLog LevelError "failed to encode document"]
     | None =>
         if url_Valid s url then
           flat_map (turn rq) (triesMade rq)
           ++ (if delivered rq then []
               else [EvSpanError "failed to execute webhook";
                     EvLog LevelError "failed to execute webhook"])
         else [EvSpanError "failed to create request";
               EvLog LevelError "failed to create request"]
     end
  ++ [EvSpanEnd "executeWebhook"].

(** The payload sent to a webhook for an event on a document. *)
Definition payload (event : string) (document : WebhookDocument)
    (webhook : database.Webhook) : WebhookEventRequest :=
  {| WebhookID := database.ID webhook;
     Event := event;
     CreatedAt := time_Now s;
     Document := document |}.

(** The traces of the delivery tasks of a dispatch over [webhooks]. *)
Definition deliveries (ctx : Context) (event : string)
    (document : WebhookDocument) (webhooks : list database.Webhook)
  : list Effect :=
  flat_map (fun webhook =>
              delivery ctx (database.URL webhook) (database.Secret webhook)
                (payload event document webhook))
           (filter (fun webhook => subscribed webhook event) webhooks).

(** The lookup a dispatch makes. *)
Definition lookup (event : string) (document : WebhookDocument)
  : database.Call (list database.Webhook) :=
  if String.eqb event WebhookEventDelete
  then database.GetAndDeleteWebhooksByDocumentID (Key document)
  else database.GetWebhooksByDocumentID (Key document).

(** What a dispatch does with the outcome of its lookup. *)
Definition afterLookup (ctx : Context) (event : string)
    (document : WebhookDocument) (r : Result (list database.Webhook))
  : list Effect :=
  match r with
  | Err _ => [EvLog LevelError "failed to get webhooks by document id"]
  | Ok [] => []
  | Ok webhooks =>
      deliveries ctx event document webhooks
      ++ [EvLog LevelDebug "finished emitting webhooks"]
  end.

End Policy.

(** ** The registry in the words of the spec *)

(** Persistence reports no rows. *)
Definition noRows {A} (r : Result A) : bool :=
  match r with
  | Err err => errors.Is_ErrNoRows err
  | Ok _ => false
  end.

(** The rows of the spec's persistence that a request names with its
    document, webhook id and secret. *)
Definition presented (r : http.Request) : database.Webhook -> bool :=
  memdb.keyed (http.documentID r) (http.webhookID r) (GetWebhookSecret r).

(** Creation as the spec words it, for one request: BadRequest and no call
    on persistence whenever a field is empty, Forbidden whenever the
    permission is missing, the created webhook when neither applies. *)
Definition createAsStated {St} (s : Server St) (r : http.Request)
    (st : State St) : Prop :=
  forall c, decodeCreate r = Ok c ->
    let emptyField := wcURL c = "" \/ wcSecret c = "" \/ wcEvents c = [] in
    let missing :=
      flags.Misses (ClaimPermissions (http.GetClaims r))
                   (PermissionWebhook s) = true in
    (emptyField ->
       exists err, result (PostDocumentWebhook s r) st
                   = ReplyError (BadRequest err)
                   /\ trace (PostDocumentWebhook s r) st = [])
    /\ (missing ->
          exists err, result (PostDocumentWebhook s r) st
                      = ReplyError (Forbidden err))
    /\ (~ emptyField -> ~ missing ->
          exists webhook, result (PostDocumentWebhook s r) st
                          = ReplyOk (Some webhook)).

(** ** Concrete inputs *)

Module Example.

(** The configuration of the spec's example: 3 tries, 100ms, factor 2,
    cap 300ms. *)
Definition config : WebhookConfig :=
  {| Enabled := true;
     Timeout := 5000 * time.Millisecond;
     MaxTries := 3;
     Backoff := 100 * time.Millisecond;
     BackoffFactor := 2%float;
     MaxBackoff := 300 * time.Millisecond |}.

Definition alwaysFails (rq : http.OutRequest) (i : Z)
  : Result http.Response :=
  Ok {| http.StatusCode := 500; http.Status := "500 Internal Server Error" |}.

(** A connection error on the first try, 204 on the second. *)
Definition secondTryWorks (rq : http.OutRequest) (i : Z)
  : Result http.Response :=
  if i =? 1
  then Ok {| http.StatusCode := 204; http.Status := "204 No Content" |}
  else Err (ErrOther "connection refused").

Definition webhookBit : Permissions := 8.

Definition server (client : http.OutRequest -> Z -> Result http.Response)
  : Server memdb.Store :=
  {| cfg := config;
     db := memdb.exec;
     version := "3";
     client_Do := client;
     json_EncodeError := fun _ => None;
     url_Valid := fun url => negb (String.eqb url "");
     time_Now := 1700000000;
     PermissionWebhook := webhookBit |}.

(** The same server with webhooks switched off. *)
Definition off : Server memdb.Store :=
  {| cfg := {| Enabled := false;
               Timeout := 5000 * time.Millisecond;
               MaxTries := 3;
               Backoff := 100 * time.Millisecond;
               BackoffFactor := 2%float;
               MaxBackoff := 300 * time.Millisecond |};
     db := memdb.exec;
     version := "3";
     client_Do := alwaysFails;
     json_EncodeError := fun _ => None;
     url_Valid := fun url => negb (String.eqb url "");
     time_Now := 1700000000;
     PermissionWebhook := webhookBit |}.

Definition hook : database.Webhook :=
  {| database.ID := "7";
     database.DocumentID := "doc";
     database.URL := "https://example.org/hook";
     database.Secret := "s3cret";
     database.Events := "update,delete" |}.

Definition deleteOnly : database.Webhook :=
  {| database.ID := "8";
     database.DocumentID := "doc";
     database.URL := "https://example.org/gone";
     database.Secret := "hunter2";
     database.Events := "delete" |}.

Definition document : WebhookDocument :=
  {| Key := "doc"; Version := 1; Files := [] |}.

Definition state (ws : list database.Webhook) : State memdb.Store :=
  {| store := memdb.up ws 9; webhookWaitGroup := 0 |}.

Definition brokenState : State memdb.Store :=
  {| store := {| memdb.rows := [hook]; memdb.nextID := 9;
                 memdb.down := Some (ErrOther "connection lost") |};
     webhookWaitGroup := 0 |}.

Definition eventRequest : WebhookEventRequest :=
  {| WebhookID := "7"; Event := "update"; CreatedAt := 1700000000;
     Document := document |}.

Definition request (auth : string) (perms : Permissions)
    (body : string * string * list string) : http.Request :=
  {| http.documentID := "doc";
     http.webhookID := "7";
     http.Authorization := auth;
     http.Context_ := RequestCtx None;
     http.GetClaims := {| ClaimPermissions := perms |};
     http.DecodedBody := Ok body |}.

End Example.

(** ** More to read from a trace *)

(** The time a trace spends asleep: [time.Sleep(d)] returns at once for a
    [d] that is not positive. *)
Definition sleptOf (t : list Effect) : Z :=
  fold_right (fun e n => match e with EvSleep d => Z.max 0 d + n | _ => n end)
             0 t.

(** [rq.Header.Get(key)] for a key in its canonical form, as the keys of
    package ezhttp are: the first value added under the key, or the empty
    string. *)
Definition Header_Get (rq : http.OutRequest) (key : string) : string :=
  match find (fun kv => String.eqb (fst kv) key) (http.Header rq) with
  | Some kv => snd kv
  | None => ""
  end.

(** No byte of the string is a comma. *)
Fixpoint noComma (x : string) : bool :=
  match x with
  | EmptyString => true
  | String c x' => negb (Ascii.eqb c ",") && noComma x'
  end.

(** A [sync.WaitGroup] panics when its counter becomes negative.
    [waitGroupSafe n t]: from the counter [n], no step of [t] does that. *)
Fixpoint waitGroupSafe (n : Z) (t : list Effect) : bool :=
  match t with
  | [] => true
  | EvWaitGroupAdd d :: t' => (0 <=? n + d) && waitGroupSafe (n + d) t'
  | EvWaitGroupDone :: t' => (0 <=? n - 1) && waitGroupSafe (n - 1) t'
  | _ :: t' => waitGroupSafe n t'
  end.

(** What reaches the server from outside: a document event to notify, or a
    request for one of the four webhook routes. *)
Inductive Op : Type :=
| OpNotify (ctx : Context) (event : string) (document : WebhookDocument)
| OpPost (r : http.Request)
| OpGet (r : http.Request)
| OpPatch (r : http.Request)
| OpDelete (r : http.Request).

Section Serving.

Context {St : Type} (s : Server St).

Definition runOp (op : Op) : M St unit :=
  match op with
  | OpNotify ctx event document => ExecuteWebhooks s ctx event document
  | OpPost r => PostDocumentWebhook s r ;; ret tt
  | OpGet r => GetDocumentWebhook s r ;; ret tt
  | OpPatch r => PatchDocumentWebhook s r ;; ret tt
  | OpDelete r => DeleteDocumentWebhook s r ;; ret tt
  end.

(** The operations one after the other, each begun when the one before
    it, its goroutines included, is over. *)
Fixpoint runOps (ops : list Op) : M St unit :=
  match ops with
  | [] => ret tt
  | op :: rest => runOp op ;; runOps rest
  end.

(** The steps of the wait group that one operation makes. *)
Definition stepsOf (op : Op) : list Effect :=
  match op with
  | OpNotify _ _ _ =>
      if Enabled (cfg s) then [EvWaitGroupAdd 1; EvWaitGroupDone] else []
  | _ => []
  end.

(** What a call on persistence made for the request [r] must satisfy to
    have passed the checks of its handler: it runs under the context of the
    request, for its document and webhook id; a creation has the Webhook
    permission behind it and a url, a secret and events that are not
    empty; a read, an update and a deletion carry the secret presented,
    which is not empty, and an update has something to update.  The
    lookups of the dispatcher are not calls of a handler. *)
Definition checked (r : http.Request) (e : Effect) : Prop :=
  match e with
  | EvDB c ctx =>
      ctx = http.Context_ r
      /\ match c with
         | database.CreateWebhook d url secret events =>
             d = http.documentID r
             /\ flags.Has (ClaimPermissions (http.GetClaims r))
                          (PermissionWebhook s) = true
             /\ url <> "" /\ secret <> "" /\ events <> []
         | database.GetWebhook d i secret
         | database.DeleteWebhook d i secret =>
             d = http.documentID r /\ i = http.webhookID r
             /\ secret = GetWebhookSecret r /\ secret <> ""
         | database.UpdateWebhook d i secret url newSecret events =>
             d = http.documentID r /\ i = http.webhookID r
             /\ secret = GetWebhookSecret r /\ secret <> ""
             /\ (url <> "" \/ newSecret <> "" \/ events <> [])
         | database.GetWebhooksByDocumentID _
         | database.GetAndDeleteWebhooksByDocumentID _ => False
         end
  | _ => False
  end.

End Serving.

(** Every sleep of the timeline is followed at once by a try. *)
Fixpoint wellPaced (l : list Tick) : bool :=
  match l with
  | [] => true
  | TickTry _ :: rest => wellPaced rest
  | TickSleep _ :: rest =>
      match rest with
      | TickTry _ :: _ => wellPaced rest
      | _ => false
      end
  end.

(** ** The backoff in the words of the spec *)

(** A finite float cut to a whole number, toward zero, whatever its size;
    nothing for an infinity and for NaN. *)
Definition truncated (f : float) : option Z :=
  match Prim2SF f with
  | S754_zero _ => Some 0
  | S754_finite sign m e =>
      let v := if 0 <=? e then Z.pos m * 2 ^ e else Z.pos m / 2 ^ (- e) in
      Some (if sign then - v else v)
  | S754_infinity _ => None
  | S754_nan => None
  end.

(** The number is a value of int64, the type under [time.Duration]. *)
Definition inInt64 (p : Z) : Prop :=
  float64.minInt64 <= p <= float64.maxInt64.

(** The number [num * 2^e] is at most [c]; is [d]. *)
Definition scaledLe (num e c : Z) : bool :=
  if 0 <=? e then num * 2 ^ e <=? c else num <=? c * 2 ^ (- e).

Definition scaledIs (num e d : Z) : Prop :=
  if 0 <=? e then num * 2 ^ e = d else num = d * 2 ^ (- e).

Section Backoff.

Context {St : Type} (s : Server St).

(** BackoffFactor * Backoff * i in float64, as line 176 multiplies. *)
Definition floatProduct (i : Z) : float :=
  PrimFloat.mul
    (PrimFloat.mul (BackoffFactor (cfg s)) (float64.of_int (Backoff (cfg s))))
    (float64.of_int i).

(** The delay in front of try [i] with the product taken in float64 and
    cut to whole nanoseconds: min(MaxBackoff, product), and no sleep for a
    product of a nanosecond or less. *)
Definition cappedBackoff (i : Z) : list Tick :=
  match truncated (floatProduct i) with
  | Some p =>
      if p <=? time.Nanosecond then []
      else [TickSleep (Z.min (MaxBackoff (cfg s)) p)]
  | None => []
  end.

(** BackoffFactor * Backoff * i as the exact number [num * 2^e], for a
    finite factor. *)
Definition exactProduct (i : Z) : option (Z * Z) :=
  match Prim2SF (BackoffFactor (cfg s)) with
  | S754_zero _ => Some (0, 0)
  | S754_finite sign m e =>
      Some ((if sign then - Z.pos m else Z.pos m) * Backoff (cfg s) * i, e)
  | S754_infinity _ => None
  | S754_nan => None
  end.

(** The delay in front of try [i] as the spec states it, on the exact
    product: no sleep when min(MaxBackoff, product) is a nanosecond or
    less, and otherwise one sleep of exactly min(MaxBackoff, product). *)
Definition delayAsStated (i : Z) (ticks : list Tick) : Prop :=
  match exactProduct i with
  | None => True
  | Some (num, e) =>
      if (MaxBackoff (cfg s) <=? time.Nanosecond)
         || scaledLe num e time.Nanosecond
      then ticks = []
      else exists d,
             ticks = [TickSleep d]
             /\ if scaledLe num e (MaxBackoff (cfg s))
                then scaledIs num e d
                else d = MaxBackoff (cfg s)
  end.

End Backoff.

Module Edge.

(** Factor 1.5 on a base of 3ns: a product of 4.5ns. *)
Definition fractional : Server memdb.Store :=
  {| cfg := {| Enabled := true;
               Timeout := 5000 * time.Millisecond;
               MaxTries := 3;
               Backoff := 3;
               BackoffFactor := 1.5%float;
               MaxBackoff := 300 * time.Millisecond |};
     db := memdb.exec;
     version := "3";
     client_Do := Example.alwaysFails;
     json_EncodeError := fun _ => None;
     url_Valid := fun url => negb (String.eqb url "");
     time_Now := 1700000000;
     PermissionWebhook := Example.webhookBit |}.

(** Factor 1e10 on a base of one second: a product beyond int64. *)
Definition overflowing : Server memdb.Store :=
  {| cfg := {| Enabled := true;
               Timeout := 5000 * time.Millisecond;
               MaxTries := 3;
               Backoff := 1000 * time.Millisecond;
               BackoffFactor := 1e10%float;
               MaxBackoff := 300 * time.Millisecond |};
     db := memdb.exec;
     version := "3";
     client_Do := Example.alwaysFails;
     json_EncodeError := fun _ => None;
     url_Valid := fun url => negb (String.eqb url "");
     time_Now := 1700000000;
     PermissionWebhook := Example.webhookBit |}.

End Edge.

(** * Properties *)

Example edge_backoffs :
  timeline (trace (sleepBackoff Edge.fractional 1) (Example.state []))
  = [TickSleep 4]
  /\ exactProduct Edge.fractional 1 = Some (20266198323167232, -52)
  /\ timeline (trace (sleepBackoff Edge.overflowing 1) (Example.state []))
     = []
  /\ truncated (floatProduct Edge.overflowing 1)
     = Some 10000000000000000000.
Proof. vm_compute. repeat split. Qed.

Example Split_events :
  strings.Split "update,delete" "," = ["update"; "delete"]
  /\ strings.Split "" "," = [""]
  /\ strings.Split "update," "," = ["update"; ""].
Proof. repeat split. Qed.

Example float_to_duration :
  float64.to_int64 (PrimFloat.mul 1.5%float (float64.of_int 3)) = 4
  /\ float64.to_int64 (PrimFloat.mul (-1.5)%float (float64.of_int 3)) = -4
  /\ float64.to_int64 (PrimFloat.mul 0.5%float (float64.of_int 1)) = 0
  /\ float64.to_int64 (PrimFloat.div 1%float 0%float) = float64.minInt64.
Proof. repeat split. Qed.

Example secret_of_headers :
  GetWebhookSecret (Example.request "Secret s3cret" 0 ("", "", [])) = "s3cret"
  /\ GetWebhookSecret (Example.request "sEcReT:s3cret" 0 ("", "", []))
     = "s3cret"
  /\ GetWebhookSecret (Example.request "Secret " 0 ("", "", [])) = ""
  /\ GetWebhookSecret (Example.request "Bearer s3cret" 0 ("", "", [])) = "".
Proof. repeat split. Qed.

Example dispatch_update :
  attemptsOf
    (trace (ExecuteWebhooks (Example.server Example.secondTryWorks)
              (RequestCtx None) "update" Example.document)
           (Example.state [Example.deleteOnly; Example.hook])) = [0; 1].
Proof. vm_compute. reflexivity. Qed.

(** ** Lists of indices *)

Lemma indices_length (n : nat) : forall i, List.length (indices n i) = n.
Proof. induction n as [| n IH]; intros i; cbn; [| rewrite IH]; reflexivity. Qed.

Lemma indices_In (n : nat) : forall i j,
  In j (indices n i) <-> i <= j < i + Z.of_nat n.
Proof.
  induction n as [| n IH]; intros i j; cbn [indices In].
  - split; [tauto | lia].
  - rewrite IH. lia.
Qed.

Lemma throughFirst_length {A} (p : A -> bool) (l : list A) :
  (List.length (throughFirst p l) <= List.length l)%nat.
Proof.
  induction l as [| x l IH]; cbn; [lia |].
  destruct (p x); cbn; lia.
Qed.

Lemma throughFirst_none {A} (p : A -> bool) (l : list A) :
  (forall x, In x l -> p x = false) ->
  throughFirst p l = l /\ existsb p l = false.
Proof.
  induction l as [| x l IH]; intros H; cbn; [split; reflexivity |].
  rewrite (H x (or_introl eq_refl)). cbn.
  destruct IH as [IH1 IH2]; [intros y Hy; apply H; right; exact Hy |].
  rewrite IH1, IH2. split; reflexivity.
Qed.

(** With the first success at offset [m], the tries are the first [m+1]
    indices. *)
Lemma throughFirst_indices (p : Z -> bool) (m : nat) : forall (n : nat) (i : Z),
  (m < n)%nat ->
  p (i + Z.of_nat m) = true ->
  (forall j, i <= j < i + Z.of_nat m -> p j = false) ->
  throughFirst p (indices n i) = indices (Datatypes.S m) i
  /\ existsb p (indices n i) = true.
Proof.
  induction m as [| m IH]; intros n i Hlt Hp Hnone.
  - destruct n as [| n]; [lia |]. cbn [indices throughFirst existsb].
    replace (i + Z.of_nat 0) with i in Hp by lia. rewrite Hp.
    split; reflexivity.
  - destruct n as [| n]; [lia |]. cbn [throughFirst existsb].
    change (indices (Datatypes.S n) i) with (i :: indices n (i + 1)).
    change (indices (Datatypes.S (Datatypes.S m)) i)
      with (i :: indices (Datatypes.S m) (i + 1)).
    cbn [throughFirst existsb].
    rewrite (Hnone i) by lia. cbn [orb].
    destruct (IH n (i + 1)) as [IH1 IH2].
    + lia.
    + rewrite <- Hp. f_equal. lia.
    + intros j Hj. apply Hnone. lia.
    + rewrite IH1, IH2. split; reflexivity.
Qed.

Lemma flat_map_flat_map {A B C} (f : A -> list B) (g : B -> list C)
    (l : list A) :
  flat_map g (flat_map f l) = flat_map (fun x => flat_map g (f x)) l.
Proof.
  induction l as [| x l IH]; cbn; [reflexivity |].
  rewrite flat_map_app, IH. reflexivity.
Qed.

Lemma flat_map_singleton {A} (l : list A) :
  flat_map (fun x => [x]) l = l.
Proof. induction l as [| x l IH]; cbn; [| rewrite IH]; reflexivity. Qed.

Lemma flat_map_nil {A B} (l : list A) :
  flat_map (fun _ : A => @nil B) l = [].
Proof. induction l as [| x l IH]; cbn; [| rewrite IH]; reflexivity. Qed.

(** ** The monad *)

Ltac run :=
  unfold defer, go, bind, ret, emit, slog, span_SetStatusError, span_End,
    time_Sleep, s_error, s_ok; simpl.

Lemma bind_run {St A B} (m : M St A) (k : A -> M St B) st a st1 t1 :
  m st = (a, st1, t1) ->
  bind m k st = (fst (fst (k a st1)), snd (fst (k a st1)), t1 ++ snd (k a st1)).
Proof.
  intros H. unfold bind. rewrite H.
  destruct (k a st1) as [[b st2] t2]. reflexivity.
Qed.

(** ** The retry loop *)

Section Loop.

Context {St : Type} (s : Server St).

Lemma status_test (code : Z) :
  (code <? 200) || (300 <=? code) = negb ((200 <=? code) && (code <? 300)).
Proof.
  destruct (Z.ltb_spec code 200), (Z.leb_spec 300 code),
           (Z.leb_spec 200 code), (Z.ltb_spec code 300);
    simpl; try reflexivity; lia.
Qed.

Lemma cap_min (cap backoff : Z) :
  (if cap <? backoff then cap else backoff) = Z.min cap backoff.
Proof. destruct (Z.ltb_spec cap backoff); lia. Qed.

Lemma sleepBackoff_run (i : Z) (st : State St) :
  sleepBackoff s i st = (tt, st, pause s i).
Proof.
  unfold sleepBackoff, pause. rewrite cap_min.
  destruct (time.Nanosecond <? rawBackoff s i); reflexivity.
Qed.

(** The loop makes the tries of [throughFirst], each with its turn, leaves
    the state alone and reports whether one succeeded. *)
Lemma tries_run (n : nat) :
  forall (i : Z) (rq : http.OutRequest) (st : State St),
  tries s n i rq st =
  (existsb (succeeds s rq) (indices n i), st,
   flat_map (turn s rq) (throughFirst (succeeds s rq) (indices n i))).
Proof.
  induction n as [| n IH]; intros i rq st; [reflexivity |].
  cbn [tries indices throughFirst existsb].
  rewrite (bind_run _ _ _ _ _ _ (sleepBackoff_run i st)).
  assert (Hs : succeeds s rq i = is2xx (client_Do s rq i)) by reflexivity.
  assert (Ht : turn s rq i =
               pause s i ++
               [EvDo rq i;
                EvLog LevelDebug
                  match client_Do s rq i with
                  | Err _ => "failed to execute request"
                  | Ok _ => if succeeds s rq i
                            then "successfully executed webhook"
                            else "invalid status code"
                  end]) by reflexivity.
  destruct (client_Do s rq i) as [rs | err].
  - cbn [is2xx] in Hs. rewrite status_test, <- Hs.
    destruct (succeeds s rq i); cbn [negb orb flat_map]; rewrite Ht.
    + run. rewrite app_nil_r. reflexivity.
    + run. rewrite IH. cbn [fst snd]. rewrite <- app_assoc. reflexivity.
  - cbn [is2xx] in Hs. rewrite Hs. cbn [orb flat_map]. rewrite Ht.
    run. rewrite IH. cbn [fst snd]. rewrite <- app_assoc. reflexivity.
Qed.

Lemma executeWebhook_run (ctx : Context) (url secret : string)
    (request : WebhookEventRequest) (st : State St) :
  executeWebhook s ctx url secret request st =
  (tt, st, delivery s ctx url secret request).
Proof.
  unfold executeWebhook, delivery, http_NewRequestWithContext.
  destruct (json_EncodeError s request) as [err |]; [reflexivity |].
  destruct (url_Valid s url); [| reflexivity].
  unfold defer.
  match goal with
  | |- context [tries s ?n ?i ?rq] =>
      change rq with (requestFor s ctx url secret request);
      pose proof (tries_run n i (requestFor s ctx url secret request)) as T
  end.
  unfold bind, slog, emit. cbn beta iota zeta. rewrite T.
  fold (delivered s (requestFor s ctx url secret request)).
  fold (triesMade s (requestFor s ctx url secret request)).
  destruct (delivered s (requestFor s ctx url secret request));
    run; rewrite ?app_nil_r; reflexivity.
Qed.

Lemma deliverAll_run (ctx : Context) (event : string)
    (document : WebhookDocument) (webhooks : list database.Webhook) :
  forall st : State St,
  deliverAll s ctx event document (time_Now s) webhooks st =
  (tt, st, deliveries s ctx event document webhooks).
Proof.
  unfold deliveries.
  induction webhooks as [| w ws IH]; intros st; [reflexivity |].
  cbn [deliverAll filter].
  destruct (subscribed w event); cbn [negb flat_map].
  - unfold go. rewrite (bind_run _ _ _ _ _ _ (executeWebhook_run _ _ _ _ st)).
    rewrite IH. reflexivity.
  - unfold bind, ret. rewrite IH. reflexivity.
Qed.

(** A dispatch: the lookup under the timeout context, then nothing more
    on a failure or an empty list, the delivery tasks otherwise; the wait
    group is released at the end on each of the three paths. *)
Lemma executeWebhooks_run (ctx : Context) (event : string)
    (document : WebhookDocument) (st : State St) :
  executeWebhooks s ctx event document st =
  let dbCtx := WithTimeout ctx (Timeout (cfg s)) in
  let r := db s _ (lookup event document) dbCtx (store st) in
  (tt,
   Build_State (snd r) (webhookWaitGroup st - 1),
   EvDB (lookup event document) dbCtx
   :: afterLookup s ctx event document (fst r)
   ++ [EvWaitGroupDone]).
Proof.
  unfold executeWebhooks, lookup, defer, afterLookup.
  assert (L : forall c : database.Call (list database.Webhook),
            db_call s c (WithTimeout ctx (Timeout (cfg s))) st =
            (fst (db s _ c (WithTimeout ctx (Timeout (cfg s))) (store st)),
             Build_State
               (snd (db s _ c (WithTimeout ctx (Timeout (cfg s))) (store st)))
               (webhookWaitGroup st),
             [EvDB c (WithTimeout ctx (Timeout (cfg s)))])).
  { intros c. unfold db_call.
    destruct (db s _ c (WithTimeout ctx (Timeout (cfg s))) (store st));
      reflexivity. }
  unfold bind at 1. unfold bind at 1.
  destruct (String.eqb event WebhookEventDelete); rewrite L; cbv zeta;
    match goal with
    | |- context [fst (db s ?A ?c ?x ?y)] =>
        destruct (db s A c x y) as [[[| w ws] | err] store']
    end; cbn [fst snd List.length Z.of_nat Z.eqb]; try reflexivity.
  all: unfold bind; rewrite deliverAll_run; reflexivity.
Qed.

End Loop.

(** ** One delivery *)

Section Delivery.

Context {St : Type} (s : Server St).

Lemma timeline_turn (rq : http.OutRequest) (i : Z) :
  timeline (turn s rq i) = delayBefore s i ++ [TickTry i].
Proof.
  unfold turn, pause, delayBefore, timeline. rewrite flat_map_app.
  rewrite Z.leb_antisym.
  destruct (time.Nanosecond <? rawBackoff s i); reflexivity.
Qed.

Lemma attemptsOf_turn (rq : http.OutRequest) (i : Z) :
  attemptsOf (turn s rq i) = [i].
Proof.
  unfold turn, pause, attemptsOf. rewrite flat_map_app.
  destruct (time.Nanosecond <? rawBackoff s i); reflexivity.
Qed.

Lemma errorLogs_turn (rq : http.OutRequest) (i : Z) :
  errorLogs (turn s rq i) = [].
Proof.
  unfold turn, pause, errorLogs. rewrite flat_map_app.
  destruct (time.Nanosecond <? rawBackoff s i); reflexivity.
Qed.

Variables (ctx : Context) (url secret : string)
          (request : WebhookEventRequest).
Hypothesis encodes : json_EncodeError s request = None.
Hypothesis parses : url_Valid s url = true.

Local Abbreviation rq := (requestFor s ctx url secret request).

Lemma delivery_built :
  delivery s ctx url secret request =
  EvLog LevelDebug "emitting webhook"
  :: (flat_map (turn s rq) (triesMade s rq)
      ++ (if delivered s rq then []
          else [EvSpanError "failed to execute webhook";
                EvLog LevelError "failed to execute webhook"]))
  ++ [EvSpanEnd "executeWebhook"].
Proof. unfold delivery. rewrite encodes, parses. reflexivity. Qed.

Lemma delivery_timeline :
  timeline (delivery s ctx url secret request) =
  flat_map (fun i => delayBefore s i ++ [TickTry i]) (triesMade s rq).
Proof.
  rewrite delivery_built. unfold timeline. cbn [flat_map tickOf app].
  rewrite !flat_map_app, flat_map_flat_map.
  fold rq.
  replace (flat_map tickOf
             (if delivered s rq then []
              else [EvSpanError "failed to execute webhook";
                    EvLog LevelError "failed to execute webhook"]))
    with (@nil Tick) by (destruct (delivered s rq); reflexivity).
  cbn [flat_map tickOf app]. rewrite !app_nil_r.
  apply flat_map_ext. intros i. apply timeline_turn.
Qed.

Lemma delivery_attempts :
  attemptsOf (delivery s ctx url secret request) = triesMade s rq.
Proof.
  rewrite delivery_built. unfold attemptsOf. cbn [flat_map app].
  rewrite !flat_map_app, flat_map_flat_map.
  fold rq.
  replace (flat_map (fun e => match e with EvDo _ i => [i] | _ => [] end)
             (if delivered s rq then []
              else [EvSpanError "failed to execute webhook";
                    EvLog LevelError "failed to execute webhook"]))
    with (@nil Z) by (destruct (delivered s rq); reflexivity).
  cbn [flat_map app]. rewrite !app_nil_r.
  rewrite (flat_map_ext _ (fun i => [i]) (attemptsOf_turn rq)).
  apply flat_map_singleton.
Qed.

Lemma delivery_errorLogs :
  errorLogs (delivery s ctx url secret request) =
  if delivered s rq then [] else ["failed to execute webhook"].
Proof.
  rewrite delivery_built. unfold errorLogs. cbn [flat_map app].
  rewrite !flat_map_app, flat_map_flat_map.
  fold rq.
  rewrite (flat_map_ext _ (fun _ => []) (errorLogs_turn rq)).
  rewrite flat_map_nil.
  destruct (delivered s rq); reflexivity.
Qed.

End Delivery.

Lemma rawBackoff_truncated {St : Type} (s : Server St) (i p : Z) :
  truncated (floatProduct s i) = Some p ->
  inInt64 p ->
  rawBackoff s i = p.
Proof.
  unfold truncated, inInt64, rawBackoff, float64.to_int64.
  fold (floatProduct s i).
  destruct (Prim2SF (floatProduct s i)) as [z | z | | sign m e];
    try discriminate.
  - intros E _. injection E as <-. reflexivity.
  - cbv zeta.
    set (r := if sign then - _ else _).
    intros E R. injection E as ->.
    destruct (Z.leb_spec float64.minInt64 p); [| lia].
    destruct (Z.leb_spec p float64.maxInt64); [| lia].
    reflexivity.
Qed.

Lemma delayBefore_capped {St : Type} (s : Server St) (i p : Z) :
  truncated (floatProduct s i) = Some p ->
  inInt64 p ->
  delayBefore s i = cappedBackoff s i.
Proof.
  intros E R. unfold delayBefore, cappedBackoff.
  rewrite (rawBackoff_truncated s i p E R), E. reflexivity.
Qed.

Lemma flat_map_ext_In {A B} (f g : A -> list B) (l : list A) :
  (forall x, In x l -> f x = g x) -> flat_map f l = flat_map g l.
Proof.
  induction l as [| x l IH]; intros H; cbn; [reflexivity |].
  rewrite (H x (or_introl eq_refl)), IH; [reflexivity |].
  intros y Hy. apply H. right. exact Hy.
Qed.

(** C1, within the range of a Duration: the product BackoffFactor *
    Backoff * i is taken in float64 and cut to whole nanoseconds, and as
    long as that number is a value of int64, the code sleeps
    min(MaxBackoff, product) in front of try [i], and does not sleep at all
    for a product of a nanosecond or less; what the endpoint sees of a
    delivery whose request could be built is then the tries made, each
    preceded by that delay.  With 3 tries, 100ms, factor 2 and cap 300ms,
    a subscriber failing every try is tried exactly 3 times: at once,
    after 200ms, and after 300ms. *)
Theorem backoff_before_each_try {St : Type} (s : Server St) (ctx : Context)
    (url secret : string) (request : WebhookEventRequest) (st : State St) :
  json_EncodeError s request = None ->
  url_Valid s url = true ->
  let rq := requestFor s ctx url secret request in
  let ticks := timeline (trace (executeWebhook s ctx url secret request) st) in
  (forall i p,
     truncated (floatProduct s i) = Some p ->
     inInt64 p ->
     timeline (trace (sleepBackoff s i) st) =
     if p <=? time.Nanosecond then []
     else [TickSleep (Z.min (MaxBackoff (cfg s)) p)])
  /\ ((forall i, In i (triesMade s rq) ->
         exists p, truncated (floatProduct s i) = Some p /\ inInt64 p) ->
      ticks = flat_map (fun i => cappedBackoff s i ++ [TickTry i])
                       (triesMade s rq))
  /\ (MaxTries (cfg s) = 3 ->
      Backoff (cfg s) = 100 * time.Millisecond ->
      BackoffFactor (cfg s) = 2%float ->
      MaxBackoff (cfg s) = 300 * time.Millisecond ->
      (forall i, succeeds s rq i = false) ->
      ticks = [TickTry 0;
               TickSleep (200 * time.Millisecond); TickTry 1;
               TickSleep (300 * time.Millisecond); TickTry 2]).
Proof.
  intros Henc Hurl rq ticks.
  assert (E : ticks =
              flat_map (fun i => delayBefore s i ++ [TickTry i])
                       (triesMade s rq)).
  { unfold ticks, trace. rewrite executeWebhook_run. cbn [snd].
    apply delivery_timeline; assumption. }
  split.
  { intros i p Hp Hr. unfold trace. rewrite sleepBackoff_run. cbn [snd].
    unfold pause. rewrite (rawBackoff_truncated s i p Hp Hr).
    rewrite Z.leb_antisym.
    destruct (time.Nanosecond <? p); reflexivity. }
  split.
  { intros Hrange. rewrite E. apply flat_map_ext_In. intros i Hi.
    destruct (Hrange i Hi) as (p & Hp & Hr).
    rewrite (delayBefore_capped s i p Hp Hr). reflexivity. }
  intros Htries Hbase Hfactor Hcap Hfail.
  rewrite E. unfold triesMade. rewrite Htries.
  change (Z.to_nat 3) with 3%nat. cbn [indices throughFirst].
  rewrite !Hfail. cbn [flat_map].
  assert (R : forall i,
             rawBackoff s i =
             float64.to_int64
               (PrimFloat.mul
                  (PrimFloat.mul 2%float
                     (float64.of_int (100 * time.Millisecond)))
                  (float64.of_int i))).
  { intros i. unfold rawBackoff. rewrite Hbase, Hfactor. reflexivity. }
  unfold delayBefore. rewrite !R, Hcap.
  vm_compute. reflexivity.
Qed.

Lemma backoff_before_each_try_witness :
  timeline
    (trace (executeWebhook (Example.server Example.alwaysFails) Background
              "https://example.org/hook" "s3cret" Example.eventRequest)
           (Example.state [])) =
  [TickTry 0; TickSleep 200000000; TickTry 1; TickSleep 300000000; TickTry 2]
  /\ timeline
       (trace (sleepBackoff (Example.server Example.alwaysFails) 2)
              (Example.state [])) =
     [TickSleep 300000000].
Proof.
  split.
  - apply (proj2 (proj2 (backoff_before_each_try
                    (Example.server Example.alwaysFails) Background
                    "https://example.org/hook" "s3cret" Example.eventRequest
                    (Example.state []) eq_refl eq_refl)));
      reflexivity.
  - apply (proj1 (backoff_before_each_try
                    (Example.server Example.alwaysFails) Background
                    "https://example.org/hook" "s3cret" Example.eventRequest
                    (Example.state []) eq_refl eq_refl) 2 400000000).
    + vm_compute. reflexivity.
    + unfold inInt64, float64.minInt64, float64.maxInt64. lia.
Defined.

(** C1 as stated fails twice.  With factor 1.5 on a base of 3ns the
    product before try 1 is 4.5ns and the code sleeps 4ns, a Duration
    being a whole number of nanoseconds.  With factor 1e10 on a base of one
    second the product before try 1 is far above the cap of 300ms and
    beyond int64, and the code does not sleep at all. *)
Lemma backoff_not_as_stated :
  ~ delayAsStated Edge.fractional 1
      (timeline (trace (sleepBackoff Edge.fractional 1) (Example.state [])))
  /\ ~ delayAsStated Edge.overflowing 1
         (timeline (trace (sleepBackoff Edge.overflowing 1)
                          (Example.state []))).
Proof.
  split; intros H.
  - change (timeline (trace (sleepBackoff Edge.fractional 1)
                            (Example.state [])))
      with [TickSleep 4] in H.
    unfold delayAsStated in H.
    change (exactProduct Edge.fractional 1)
      with (Some (20266198323167232, -52)) in H.
    vm_compute in H. destruct H as (d & E & P).
    injection E as <-. discriminate P.
  - change (timeline (trace (sleepBackoff Edge.overflowing 1)
                            (Example.state [])))
      with (@nil Tick) in H.
    unfold delayAsStated in H.
    destruct (exactProduct Edge.overflowing 1) as [[num e] |] eqn:X;
      [| vm_compute in X; discriminate X].
    vm_compute in X. injection X as <- <-.
    vm_compute in H. destruct H as (d & E & _). discriminate E.
Qed.

(** C2: in a delivery whose request could be built, the tries are made one
    after the other in the order 0, 1, 2, ..., at most [MaxTries] of them,
    and stop with the first one answered by a status in 2xx: with the first
    success at try [k] exactly the tries 0..k are made and nothing is
    logged as an error; a transport error and a status outside 2xx are
    failures and the loop goes on; when no try succeeds all [MaxTries] are
    made and the failure is logged, the function returning nothing and
    leaving the state of the server as it was. *)
Theorem retry_until_first_success {St : Type} (s : Server St) (ctx : Context)
    (url secret : string) (request : WebhookEventRequest) (st : State St) :
  json_EncodeError s request = None ->
  url_Valid s url = true ->
  let rq := requestFor s ctx url secret request in
  let task := executeWebhook s ctx url secret request in
  let made := attemptsOf (trace task st) in
  made = throughFirst (succeeds s rq) (indices (Z.to_nat (MaxTries (cfg s))) 0)
  /\ Z.of_nat (List.length made) <= Z.max 0 (MaxTries (cfg s))
  /\ (forall k, 0 <= k < MaxTries (cfg s) ->
        succeeds s rq k = true ->
        (forall j, 0 <= j < k -> succeeds s rq j = false) ->
        made = indices (Z.to_nat (k + 1)) 0
        /\ errorLogs (trace task st) = [])
  /\ ((forall j, 0 <= j < MaxTries (cfg s) -> succeeds s rq j = false) ->
        made = indices (Z.to_nat (MaxTries (cfg s))) 0
        /\ errorLogs (trace task st) = ["failed to execute webhook"])
  /\ (forall i, succeeds s rq i = true <->
        exists rs, client_Do s rq i = Ok rs
                   /\ 200 <= http.StatusCode rs < 300)
  /\ result task st = tt
  /\ final task st = st.
Proof.
  intros Henc Hurl rq task made.
  assert (T : task st = (tt, st, delivery s ctx url secret request))
    by apply executeWebhook_run.
  assert (Hmade : made = triesMade s rq).
  { unfold made, trace. rewrite T. apply delivery_attempts; assumption. }
  assert (Hlogs : errorLogs (trace task st) =
                  if delivered s rq then [] else ["failed to execute webhook"]).
  { unfold trace. rewrite T. apply delivery_errorLogs; assumption. }
  split; [exact Hmade |].
  split.
  { rewrite Hmade. unfold triesMade.
    pose proof (throughFirst_length (succeeds s rq)
                  (indices (Z.to_nat (MaxTries (cfg s))) 0)) as L.
    rewrite indices_length in L. lia. }
  split.
  { intros k Hk Hok Hbefore.
    destruct (throughFirst_indices (succeeds s rq) (Z.to_nat k)
                (Z.to_nat (MaxTries (cfg s))) 0) as [H1 H2].
    - lia.
    - rewrite Z2Nat.id by lia. exact Hok.
    - intros j Hj. apply Hbefore. lia.
    - rewrite Hlogs, Hmade. unfold delivered, triesMade. rewrite H1, H2.
      replace (Z.to_nat (k + 1)) with (Datatypes.S (Z.to_nat k)) by lia.
      split; reflexivity. }
  split.
  { intros Hfail.
    destruct (throughFirst_none (succeeds s rq)
                (indices (Z.to_nat (MaxTries (cfg s))) 0)) as [H1 H2].
    - intros j Hj. apply indices_In in Hj. apply Hfail. lia.
    - rewrite Hlogs, Hmade. unfold delivered, triesMade. rewrite H1, H2.
      split; reflexivity. }
  split.
  { intros i. unfold succeeds, is2xx.
    destruct (client_Do s rq i) as [rs | err].
    - rewrite andb_true_iff, Z.leb_le, Z.ltb_lt. split.
      + intros H. exists rs. split; [reflexivity | exact H].
      + intros [rs' [E H]]. injection E as <-. exact H.
    - split; [discriminate | intros [rs [E _]]; discriminate]. }
  unfold result, final. rewrite T. split; reflexivity.
Qed.

Lemma retry_until_first_success_witness :
  attemptsOf
    (trace (executeWebhook (Example.server Example.secondTryWorks) Background
              "https://example.org/hook" "s3cret" Example.eventRequest)
           (Example.state [])) = [0; 1]
  /\ errorLogs
       (trace (executeWebhook (Example.server Example.secondTryWorks)
                 Background "https://example.org/hook" "s3cret"
                 Example.eventRequest)
              (Example.state [])) = [].
Proof.
  apply (proj1 (proj2 (proj2 (retry_until_first_success
                  (Example.server Example.secondTryWorks) Background
                  "https://example.org/hook" "s3cret" Example.eventRequest
                  (Example.state []) eq_refl eq_refl))) 1).
  - cbn. lia.
  - reflexivity.
  - intros j Hj. replace j with 0 by lia. reflexivity.
Defined.

(** ** One dispatch *)

Lemma addsOf_app (a b : list Effect) : addsOf (a ++ b) = addsOf a + addsOf b.
Proof.
  unfold addsOf. induction a as [| e a IH]; cbn [app fold_right]; [lia |].
  destruct e; lia.
Qed.

Lemma donesOf_app (a b : list Effect) :
  donesOf (a ++ b) = donesOf a + donesOf b.
Proof.
  unfold donesOf. induction a as [| e a IH]; cbn [app fold_right]; [lia |].
  destruct e; lia.
Qed.

Lemma ofDelivery_quiet (t : list Effect) :
  forallb ofDelivery t = true ->
  addsOf t = 0 /\ donesOf t = 0 /\ callsOf t = [].
Proof.
  induction t as [| e t IH]; cbn [forallb]; [repeat split |].
  rewrite andb_true_iff. intros [He Ht]. specialize (IH Ht).
  destruct IH as (IH1 & IH2 & IH3).
  destruct e; try discriminate He; cbn; repeat split; assumption.
Qed.

Lemma forallb_flat_map {A B} (p : B -> bool) (f : A -> list B) (l : list A) :
  (forall x, forallb p (f x) = true) -> forallb p (flat_map f l) = true.
Proof.
  intros H. induction l as [| x l IH]; cbn; [reflexivity |].
  rewrite forallb_app, H, IH. reflexivity.
Qed.

Section Dispatch.

Context {St : Type} (s : Server St).

Lemma turn_ofDelivery (rq : http.OutRequest) (i : Z) :
  forallb ofDelivery (turn s rq i) = true.
Proof.
  unfold turn, pause. rewrite forallb_app.
  destruct (time.Nanosecond <? rawBackoff s i); reflexivity.
Qed.

Lemma delivery_ofDelivery (ctx : Context) (url secret : string)
    (request : WebhookEventRequest) :
  forallb ofDelivery (delivery s ctx url secret request) = true.
Proof.
  unfold delivery. cbn [forallb ofDelivery andb]. rewrite forallb_app.
  rewrite andb_true_iff. split; [| reflexivity].
  destruct (json_EncodeError s request); [reflexivity |].
  destruct (url_Valid s url); [| reflexivity].
  rewrite forallb_app, forallb_flat_map by apply turn_ofDelivery.
  destruct (delivered s _); reflexivity.
Qed.

Lemma deliveries_ofDelivery (ctx : Context) (event : string)
    (document : WebhookDocument) (webhooks : list database.Webhook) :
  forallb ofDelivery (deliveries s ctx event document webhooks) = true.
Proof.
  unfold deliveries. apply forallb_flat_map. intros w.
  apply delivery_ofDelivery.
Qed.

Lemma afterLookup_ofDelivery (ctx : Context) (event : string)
    (document : WebhookDocument) (r : Result (list database.Webhook)) :
  forallb ofDelivery (afterLookup s ctx event document r) = true.
Proof.
  destruct r as [[| w ws] | err]; cbn [afterLookup]; try reflexivity.
  rewrite forallb_app, deliveries_ofDelivery. reflexivity.
Qed.

(** A try found in the trace of a delivery sends the request of that
    delivery. *)
Lemma delivery_request (ctx : Context) (url secret : string)
    (request : WebhookEventRequest) (rq : http.OutRequest) (i : Z) :
  In (EvDo rq i) (delivery s ctx url secret request) ->
  rq = requestFor s ctx url secret request.
Proof.
  unfold delivery. cbn [In]. intros [H | H]; [discriminate H |].
  apply in_app_or in H. destruct H as [H | [H | []]]; [| discriminate H].
  destruct (json_EncodeError s request).
  { destruct H as [H | [H | []]]; discriminate H. }
  destruct (url_Valid s url).
  2: { destruct H as [H | [H | []]]; discriminate H. }
  apply in_app_or in H. destruct H as [H | H].
  - apply in_flat_map in H. destruct H as [j [_ H]].
    unfold turn, pause in H. apply in_app_or in H. destruct H as [H | H].
    + destruct (time.Nanosecond <? rawBackoff s j);
        [destruct H as [H | [H | []]]; discriminate H | destruct H].
    + destruct H as [H | [H | []]]; [| discriminate H].
      injection H as <- _. reflexivity.
  - destruct (delivered s _); [destruct H |].
    destruct H as [H | [H | []]]; discriminate H.
Qed.

(** A try found in the trace of the delivery tasks belongs to a webhook of
    the list that is subscribed to the event. *)
Lemma deliveries_request (ctx : Context) (event : string)
    (document : WebhookDocument) (webhooks : list database.Webhook)
    (rq : http.OutRequest) (i : Z) :
  In (EvDo rq i) (deliveries s ctx event document webhooks) ->
  exists webhook,
    In webhook webhooks
    /\ subscribed webhook event = true
    /\ rq = requestFor s ctx (database.URL webhook) (database.Secret webhook)
              (payload s event document webhook).
Proof.
  unfold deliveries. intros H. apply in_flat_map in H.
  destruct H as [w [Hw H]]. apply filter_In in Hw. destruct Hw as [Hin Hsub].
  exists w. repeat split; try assumption.
  eapply delivery_request. exact H.
Qed.

Lemma afterLookup_request (ctx : Context) (event : string)
    (document : WebhookDocument) (r : Result (list database.Webhook))
    (rq : http.OutRequest) (i : Z) :
  In (EvDo rq i) (afterLookup s ctx event document r) ->
  exists webhooks webhook,
    r = Ok webhooks
    /\ In webhook webhooks
    /\ subscribed webhook event = true
    /\ rq = requestFor s ctx (database.URL webhook) (database.Secret webhook)
              (payload s event document webhook).
Proof.
  destruct r as [[| w ws] | err]; cbn [afterLookup].
  - intros [].
  - intros H. apply in_app_or in H. destruct H as [H | [H | []]];
      [| discriminate H].
    apply deliveries_request in H. destruct H as [w' H].
    exists (w :: ws), w'. split; [reflexivity | exact H].
  - intros [H | []]. discriminate H.
Qed.

(** [ExecuteWebhooks] as a whole. *)
Lemma ExecuteWebhooks_run (ctx : Context) (event : string)
    (document : WebhookDocument) (st : State St) :
  ExecuteWebhooks s ctx event document st =
  if Enabled (cfg s) then
    let ctx' := WithSpan (WithoutCancel ctx) "executeWebhooks" in
    let dbCtx := WithTimeout ctx' (Timeout (cfg s)) in
    let r := db s _ (lookup event document) dbCtx (store st) in
    (tt,
     Build_State (snd r) (webhookWaitGroup st + 1 - 1),
     EvWaitGroupAdd 1
     :: (EvDB (lookup event document) dbCtx
         :: afterLookup s ctx' event document (fst r)
         ++ [EvWaitGroupDone])
     ++ [EvSpanEnd "executeWebhooks"])
  else (tt, st, []).
Proof.
  unfold ExecuteWebhooks. destruct (Enabled (cfg s)); [| reflexivity].
  cbn [negb]. unfold go, defer, bind, WaitGroup_Add.
  rewrite executeWebhooks_run. reflexivity.
Qed.

End Dispatch.

(** The delivery tasks of a dispatch are the runs of [executeWebhook], one
    for each webhook of the list subscribed to the event, in the order of
    the list. *)
Lemma deliveries_tasks {St : Type} (s : Server St) (ctx : Context)
    (event : string) (document : WebhookDocument)
    (webhooks : list database.Webhook) (st : State St) :
  deliveries s ctx event document webhooks =
  flat_map (fun w =>
              trace (executeWebhook s ctx (database.URL w) (database.Secret w)
                       (payload s event document w)) st)
           (filter (fun w => subscribed w event) webhooks).
Proof.
  unfold deliveries. apply flat_map_ext. intros w.
  unfold trace. rewrite executeWebhook_run. reflexivity.
Qed.

Lemma ofDelivery_no_waitGroup (t : list Effect) :
  forallb ofDelivery t = true -> waitGroupSteps t = [].
Proof.
  unfold waitGroupSteps.
  induction t as [| e t IH]; cbn [forallb filter]; [reflexivity |].
  rewrite andb_true_iff. intros [He Ht].
  destruct e; try discriminate He; cbn [isWaitGroup]; auto.
Qed.

(** C9: with webhooks enabled a call of [ExecuteWebhooks] steps the wait
    group exactly twice, one [Add(1)] first and one [Done] when the dispatch
    is over, so the counter ends where it began; this holds on every path,
    the return after a failed lookup and the return on an empty list among
    them.  The [Done] is the last effect of the dispatch but for the end
    of its span: the lookup and every sleep and try of every delivery task
    come before it.  With webhooks disabled the call does nothing at
    all. *)
Theorem wait_group_balanced {St : Type} (s : Server St) (ctx : Context)
    (event : string) (document : WebhookDocument) (st : State St) :
  let call := ExecuteWebhooks s ctx event document in
  let detached := WithSpan (WithoutCancel ctx) "executeWebhooks" in
  let dbCtx := WithTimeout detached (Timeout (cfg s)) in
  let looked := fst (db s _ (lookup event document) dbCtx (store st)) in
  (Enabled (cfg s) = true ->
     waitGroupSteps (trace call st) = [EvWaitGroupAdd 1; EvWaitGroupDone]
     /\ addsOf (trace call st) = 1
     /\ donesOf (trace call st) = 1
     /\ webhookWaitGroup (final call st) = webhookWaitGroup st
     /\ (forall err, looked = Err err ->
           trace call st =
           [EvWaitGroupAdd 1;
            EvDB (lookup event document) dbCtx;
            EvLog LevelError "failed to get webhooks by document id";
            EvWaitGroupDone;
            EvSpanEnd "executeWebhooks"])
     /\ (looked = Ok [] ->
           trace call st =
           [EvWaitGroupAdd 1;
            EvDB (lookup event document) dbCtx;
            EvWaitGroupDone;
            EvSpanEnd "executeWebhooks"])
     /\ (exists body,
           trace call st =
           EvWaitGroupAdd 1
           :: body ++ [EvWaitGroupDone; EvSpanEnd "executeWebhooks"]
           /\ waitGroupSteps body = []
           /\ timeline body = timeline (trace call st)
           /\ callsOf body = callsOf (trace call st))
     /\ (forall webhooks, looked = Ok webhooks -> webhooks <> [] ->
           trace call st =
           [EvWaitGroupAdd 1; EvDB (lookup event document) dbCtx]
           ++ flat_map
                (fun w =>
                   trace (executeWebhook s detached (database.URL w)
                            (database.Secret w)
                            (payload s event document w)) st)
                (filter (fun w => subscribed w event) webhooks)
           ++ [EvLog LevelDebug "finished emitting webhooks";
               EvWaitGroupDone;
               EvSpanEnd "executeWebhooks"]))
  /\ (Enabled (cfg s) = false ->
        trace call st = [] /\ final call st = st).
Proof.
  intros call detached dbCtx looked.
  unfold trace, final, call. rewrite ExecuteWebhooks_run.
  split; intros En; rewrite En; [| split; reflexivity].
  cbv zeta. cbn [fst snd].
  fold detached. fold dbCtx. fold looked.
  pose proof (afterLookup_ofDelivery s detached event document looked) as Q.
  destruct (ofDelivery_quiet _ Q) as (Q1 & Q2 & _).
  pose proof (ofDelivery_no_waitGroup _ Q) as Q3.
  split.
  { unfold waitGroupSteps in *. cbn [filter isWaitGroup app].
    rewrite <- app_assoc, filter_app, Q3. reflexivity. }
  split.
  { change (addsOf (EvWaitGroupAdd 1 :: ?t)) with (1 + addsOf t).
    cbn [app]. change (addsOf (EvDB ?c ?x :: ?t)) with (addsOf t).
    rewrite !addsOf_app, Q1. reflexivity. }
  split.
  { change (donesOf (EvWaitGroupAdd 1 :: ?t)) with (donesOf t).
    cbn [app]. change (donesOf (EvDB ?c ?x :: ?t)) with (donesOf t).
    rewrite !donesOf_app, Q2. reflexivity. }
  split; [cbn [webhookWaitGroup]; lia |].
  split; [intros err E; rewrite E; reflexivity |].
  split; [intros E; rewrite E; reflexivity |].
  split.
  - exists (EvDB (lookup event document) dbCtx
            :: afterLookup s detached event document looked).
    split; [cbn [app]; rewrite <- app_assoc; reflexivity |].
    split; [unfold waitGroupSteps in *; cbn [filter isWaitGroup]; exact Q3 |].
    unfold timeline, callsOf. cbn [flat_map app].
    rewrite !flat_map_app. cbn [flat_map app]. rewrite !app_nil_r.
    split; reflexivity.
  - intros webhooks E Hne. rewrite E.
    destruct webhooks as [| w ws]; [contradiction |].
    unfold afterLookup.
    rewrite (deliveries_tasks s detached event document (w :: ws) st).
    cbn [app]. rewrite <- !app_assoc. reflexivity.
Qed.

Lemma wait_group_balanced_witness :
  trace (ExecuteWebhooks (Example.server Example.alwaysFails)
           (RequestCtx None) "update" Example.document)
        Example.brokenState =
  [EvWaitGroupAdd 1;
   EvDB (database.GetWebhooksByDocumentID "doc")
     (WithTimeout (WithSpan (WithoutCancel (RequestCtx None))
                            "executeWebhooks") 5000000000);
   EvLog LevelError "failed to get webhooks by document id";
   EvWaitGroupDone;
   EvSpanEnd "executeWebhooks"]
  /\ webhookWaitGroup
       (final (ExecuteWebhooks (Example.server Example.alwaysFails)
                 (RequestCtx None) "update" Example.document)
              (Example.state [Example.hook])) = 0
  /\ trace (ExecuteWebhooks Example.off (RequestCtx None) "update"
              Example.document)
           (Example.state [Example.hook]) = []
  /\ trace (ExecuteWebhooks (Example.server Example.alwaysFails)
              (RequestCtx None) "update" Example.document)
           (Example.state [Example.hook]) =
     [EvWaitGroupAdd 1;
      EvDB (database.GetWebhooksByDocumentID "doc")
        (WithTimeout (WithSpan (WithoutCancel (RequestCtx None))
                               "executeWebhooks") 5000000000)]
     ++ trace (executeWebhook (Example.server Example.alwaysFails)
                 (WithSpan (WithoutCancel (RequestCtx None))
                           "executeWebhooks")
                 "https://example.org/hook" "s3cret" Example.eventRequest)
              (Example.state [Example.hook])
     ++ [EvLog LevelDebug "finished emitting webhooks";
         EvWaitGroupDone;
         EvSpanEnd "executeWebhooks"].
Proof.
  split; [| split; [| split]].
  4: { rewrite (proj2 (proj2 (proj2 (proj2 (proj2 (proj2 (proj2
                 (proj1 (wait_group_balanced
                           (Example.server Example.alwaysFails)
                           (RequestCtx None) "update" Example.document
                           (Example.state [Example.hook])) eq_refl)))))))
                 [Example.hook] eq_refl ltac:(discriminate)).
       reflexivity. }
  - apply (proj1 (proj2 (proj2 (proj2 (proj2
             (proj1 (wait_group_balanced
                       (Example.server Example.alwaysFails)
                       (RequestCtx None) "update" Example.document
                       Example.brokenState) eq_refl)))))
             (ErrOther "connection lost")).
    reflexivity.
  - apply (proj1 (proj2 (proj2 (proj2
             (proj1 (wait_group_balanced
                       (Example.server Example.alwaysFails)
                       (RequestCtx None) "update" Example.document
                       (Example.state [Example.hook])) eq_refl))))).
  - apply (proj1 (proj2 (wait_group_balanced Example.off (RequestCtx None)
                           "update" Example.document
                           (Example.state [Example.hook])) eq_refl)).
Defined.

(** ** Contexts of a dispatch *)

(** C3, as the code has it: the timeout is put around the detached context
    for the lookup only.  The lookup of a dispatch runs under
    [WithTimeout(detached, Timeout)], bounded by the configured timeout and
    not cancelled with the request; every try is sent under the detached
    context itself (and the span of the task), which has no deadline and is
    not cancelled with the request either. *)
Theorem timeout_on_lookup_only {St : Type} (s : Server St) (ctx : Context)
    (event : string) (document : WebhookDocument) (st : State St) :
  let t := trace (ExecuteWebhooks s ctx event document) st in
  let detached := WithSpan (WithoutCancel ctx) "executeWebhooks" in
  (forall kind c, In (kind, c) (callsOf t) ->
     c = WithTimeout detached (Timeout (cfg s))
     /\ Deadline c = Some (Timeout (cfg s))
     /\ cancelledWithRequest c = false)
  /\ (forall rq i, In (EvDo rq i) t ->
        http.Ctx rq = WithSpan detached "executeWebhook"
        /\ Deadline (http.Ctx rq) = None
        /\ cancelledWithRequest (http.Ctx rq) = false).
Proof.
  intros t detached. unfold t, trace. rewrite ExecuteWebhooks_run.
  destruct (Enabled (cfg s)); [| split; intros ? ? []].
  cbv zeta. cbn [snd]. fold detached.
  set (dbCtx := WithTimeout detached (Timeout (cfg s))).
  set (looked := fst (db s _ (lookup event document) dbCtx (store st))).
  pose proof (afterLookup_ofDelivery s detached event document looked) as Q.
  destruct (ofDelivery_quiet _ Q) as (_ & _ & Q3).
  split.
  - intros kind c H. unfold callsOf in H. cbn [flat_map app] in H.
    rewrite <- app_assoc, flat_map_app in H.
    fold (callsOf (afterLookup s detached event document looked)) in H.
    rewrite Q3 in H. cbn in H. destruct H as [H | []].
    injection H as _ <-. repeat split.
  - intros rq i H. cbn [In] in H. destruct H as [H | H]; [discriminate H |].
    apply in_app_or in H. destruct H as [H | [H | []]]; [| discriminate H].
    destruct H as [H | H]; [discriminate H |].
    apply in_app_or in H. destruct H as [H | [H | []]]; [| discriminate H].
    apply afterLookup_request in H.
    destruct H as (ws & w & _ & _ & _ & ->). repeat split.
Qed.

Lemma timeout_on_lookup_only_witness :
  Deadline
    (http.Ctx
       (requestFor (Example.server Example.alwaysFails)
          (WithSpan (WithoutCancel (RequestCtx (Some 1000))) "executeWebhooks")
          "https://example.org/hook" "s3cret" Example.eventRequest)) = None.
Proof.
  apply (proj2 (timeout_on_lookup_only
                  (Example.server Example.alwaysFails)
                  (RequestCtx (Some 1000)) "update" Example.document
                  (Example.state [Example.hook])) _ 0).
  vm_compute. tauto.
Defined.

(** C3 as stated fails: in the dispatch of an update to one subscribed
    webhook the tries are sent under a context without a deadline. *)
Lemma try_without_deadline :
  ~ deadlineOnEveryTry
      (trace (ExecuteWebhooks (Example.server Example.alwaysFails)
                (RequestCtx (Some 1000)) "update" Example.document)
             (Example.state [Example.hook])).
Proof.
  intros H.
  destruct (H (requestFor (Example.server Example.alwaysFails)
                 (WithSpan (WithoutCancel (RequestCtx (Some 1000)))
                           "executeWebhooks")
                 "https://example.org/hook" "s3cret" Example.eventRequest) 0)
    as [d Hd].
  - vm_compute. tauto.
  - discriminate Hd.
Qed.

(** ** Which webhooks a dispatch reaches *)

Lemma filter_none {A} (p : A -> bool) (l : list A) :
  (forall x, In x l -> p x = false) -> filter p l = [].
Proof.
  induction l as [| x l IH]; intros H; cbn; [reflexivity |].
  rewrite (H x (or_introl eq_refl)). apply IH.
  intros y Hy. apply H. right. exact Hy.
Qed.

Lemma filter_filter_negb {A} (p : A -> bool) (l : list A) :
  filter p (filter (fun x => negb (p x)) l) = [].
Proof.
  apply filter_none. intros x Hx. apply filter_In in Hx.
  destruct Hx as [_ Hx]. destruct (p x); [discriminate Hx | reflexivity].
Qed.

Lemma memdb_getAndDelete (st : memdb.Store) (ctx : Context) (d : string) :
  memdb.down st = None ->
  memdb.exec _ (database.GetAndDeleteWebhooksByDocumentID d) ctx st =
  (Ok (filter (memdb.ofDocument d) (memdb.rows st)),
   {| memdb.rows :=
        filter (fun w => negb (memdb.ofDocument d w)) (memdb.rows st);
      memdb.nextID := memdb.nextID st;
      memdb.down := None |}).
Proof. intros H. unfold memdb.exec. rewrite H. reflexivity. Qed.

(** C4: a dispatch makes one call on persistence, under the timeout
    context: the atomic get-and-delete exactly when the event is "delete",
    the plain lookup for every other event.  When the call fails the
    dispatch logs the failure and ends without a single try.  When it
    gives a list, the dispatch runs [executeWebhook] once for each webhook
    of the list subscribed to the event, in the order of the list, and
    does nothing else before it ends.  On a persistence that follows the
    spec the get-and-delete of a delete dispatch gives each row of the
    document once and leaves none, and a second delete dispatch for the
    document tries no webhook; so a webhook fires for a delete event at
    most once. *)
Theorem lookup_by_event {St : Type} (s : Server St) (ctx : Context)
    (event : string) (document : WebhookDocument) (st : State St) :
  let t := trace (executeWebhooks s ctx event document) st in
  let dbCtx := WithTimeout ctx (Timeout (cfg s)) in
  callsOf t =
    [(if String.eqb event "delete"
      then AtomicGetAndDelete (Key document)
      else PlainLookup (Key document), dbCtx)]
  /\ (event = "delete" <->
      callsOf t = [(AtomicGetAndDelete (Key document), dbCtx)])
  /\ (forall err,
        fst (db s _ (lookup event document) dbCtx (store st)) = Err err ->
        t = [EvDB (lookup event document) dbCtx;
             EvLog LevelError "failed to get webhooks by document id";
             EvWaitGroupDone]
        /\ attemptsOf t = [])
  /\ (forall (m : State memdb.Store) (ctx2 : Context),
        memdb.down (store m) = None ->
        let first := executeWebhooks (memdb.on s) ctx "delete" document in
        let second := executeWebhooks (memdb.on s) ctx2 "delete" document in
        filter (memdb.ofDocument (Key document))
               (memdb.rows (store (final first m))) = []
        /\ attemptsOf (trace second (final first m)) = [])
  /\ (forall webhooks,
        fst (db s _ (lookup event document) dbCtx (store st)) = Ok webhooks ->
        t = EvDB (lookup event document) dbCtx
            :: match webhooks with
               | [] => []
               | _ =>
                   flat_map
                     (fun w =>
                        trace (executeWebhook s ctx (database.URL w)
                                 (database.Secret w)
                                 (payload s event document w)) st)
                     (filter (fun w => subscribed w event) webhooks)
                   ++ [EvLog LevelDebug "finished emitting webhooks"]
               end
            ++ [EvWaitGroupDone])
  /\ (forall (m : State memdb.Store) (c : Context),
        memdb.down (store m) = None ->
        fst (db (memdb.on s) _ (lookup "delete" document) c (store m))
        = Ok (filter (memdb.ofDocument (Key document))
                     (memdb.rows (store m)))).
Proof.
  intros t dbCtx.
  assert (C : callsOf t =
              [(if String.eqb event "delete"
                then AtomicGetAndDelete (Key document)
                else PlainLookup (Key document), dbCtx)]).
  { unfold t, trace. rewrite executeWebhooks_run. cbv zeta. cbn [snd].
    fold dbCtx.
    set (looked := fst (db s _ (lookup event document) dbCtx (store st))).
    pose proof (afterLookup_ofDelivery s ctx event document looked) as Q.
    destruct (ofDelivery_quiet _ Q) as (_ & _ & Q3).
    unfold callsOf. cbn [flat_map]. rewrite flat_map_app.
    fold (callsOf (afterLookup s ctx event document looked)). rewrite Q3.
    unfold lookup, WebhookEventDelete.
    destruct (String.eqb event "delete"); reflexivity. }
  split; [exact C |].
  split.
  { rewrite C. destruct (String.eqb_spec event "delete") as [E | E].
    - split; [reflexivity | intros _; exact E].
    - split; [intros E'; contradiction | intros E'; discriminate E']. }
  split.
  { intros err E. unfold t, trace. rewrite executeWebhooks_run. cbv zeta.
    cbn [snd]. fold dbCtx. rewrite E. split; reflexivity. }
  split.
  { intros m ctx2 Hup first second.
    unfold first, second, final, trace.
    rewrite !executeWebhooks_run. cbv zeta. cbn [fst snd store].
    change (lookup "delete" document)
      with (database.GetAndDeleteWebhooksByDocumentID (Key document)).
    cbn [db memdb.on].
    rewrite (memdb_getAndDelete (store m) _ _ Hup). cbn [fst snd store].
    rewrite memdb_getAndDelete by reflexivity.
    cbn [fst snd store memdb.rows]. rewrite filter_filter_negb.
    split; reflexivity. }
  split.
  { intros webhooks E. unfold t, trace. rewrite executeWebhooks_run.
    cbv zeta. cbn [snd]. fold dbCtx. rewrite E. unfold afterLookup.
    destruct webhooks as [| w ws]; [reflexivity |].
    rewrite (deliveries_tasks s ctx event document (w :: ws) st).
    reflexivity. }
  intros m c Hup.
  change (lookup "delete" document)
    with (database.GetAndDeleteWebhooksByDocumentID (Key document)).
  cbn [db memdb.on]. rewrite (memdb_getAndDelete (store m) _ _ Hup).
  reflexivity.
Qed.

Lemma lookup_by_event_witness :
  trace (executeWebhooks (Example.server Example.alwaysFails) Background
           "delete" Example.document)
        Example.brokenState =
  [EvDB (database.GetAndDeleteWebhooksByDocumentID "doc")
     (WithTimeout Background 5000000000);
   EvLog LevelError "failed to get webhooks by document id";
   EvWaitGroupDone]
  /\ attemptsOf
       (trace (executeWebhooks (Example.server Example.alwaysFails) Background
                 "delete" Example.document)
              (final (executeWebhooks (Example.server Example.alwaysFails)
                        Background "delete" Example.document)
                     (Example.state [Example.hook; Example.deleteOnly]))) = []
  /\ attemptsOf
       (trace (executeWebhooks (Example.server Example.alwaysFails) Background
                 "delete" Example.document)
              (Example.state [Example.hook; Example.deleteOnly]))
     = [0; 1; 2; 0; 1; 2].
Proof.
  split; [| split].
  3: { rewrite (proj1 (proj2 (proj2 (proj2 (proj2 (lookup_by_event
                 (Example.server Example.alwaysFails) Background "delete"
                 Example.document
                 (Example.state [Example.hook; Example.deleteOnly]))))))
                 [Example.hook; Example.deleteOnly] eq_refl).
       reflexivity. }
  - apply (proj1 (proj2 (proj2 (lookup_by_event
             (Example.server Example.alwaysFails) Background "delete"
             Example.document Example.brokenState)))
             (ErrOther "connection lost")).
    reflexivity.
  - apply (proj1 (proj2 (proj2 (proj2 (lookup_by_event
             (Example.server Example.alwaysFails) Background "delete"
             Example.document (Example.state [])))))
             (Example.state [Example.hook; Example.deleteOnly]) Background).
    reflexivity.
Defined.

(** C5: every try of a dispatch is sent to a webhook of the resolved list
    that is subscribed to the firing event; a webhook that is not
    subscribed is passed over without any effect, so the loop over a list
    with it does what the loop over the list without it does; when no
    webhook was resolved or none is subscribed, nothing is sent and nothing
    is slept; and with webhooks disabled [ExecuteWebhooks] does nothing. *)
Theorem only_subscribers_are_tried {St : Type} (s : Server St) (ctx : Context)
    (event : string) (document : WebhookDocument) (st : State St) :
  let t := trace (ExecuteWebhooks s ctx event document) st in
  let detached := WithSpan (WithoutCancel ctx) "executeWebhooks" in
  let looked :=
    fst (db s _ (lookup event document)
           (WithTimeout detached (Timeout (cfg s))) (store st)) in
  (forall rq i, In (EvDo rq i) t ->
     exists webhooks webhook,
       looked = Ok webhooks
       /\ In webhook webhooks
       /\ subscribed webhook event = true
       /\ rq = requestFor s detached (database.URL webhook)
                 (database.Secret webhook) (payload s event document webhook))
  /\ (forall ws1 w ws2 c now st',
        subscribed w event = false ->
        deliverAll s c event document now (ws1 ++ w :: ws2) st' =
        deliverAll s c event document now (ws1 ++ ws2) st')
  /\ (forall webhooks,
        looked = Ok webhooks ->
        (forall w, In w webhooks -> subscribed w event = false) ->
        requestsOf t = [] /\ timeline t = [])
  /\ (Enabled (cfg s) = false ->
        ExecuteWebhooks s ctx event document st = (tt, st, [])).
Proof.
  intros t detached looked.
  assert (T : t =
              if Enabled (cfg s) then
                EvWaitGroupAdd 1
                :: (EvDB (lookup event document)
                         (WithTimeout detached (Timeout (cfg s)))
                    :: afterLookup s detached event document looked
                    ++ [EvWaitGroupDone])
                ++ [EvSpanEnd "executeWebhooks"]
              else []).
  { unfold t, trace. rewrite ExecuteWebhooks_run.
    destruct (Enabled (cfg s)); reflexivity. }
  split.
  { intros rq i H. rewrite T in H.
    destruct (Enabled (cfg s)); [| destruct H].
    cbn [In] in H. destruct H as [H | H]; [discriminate H |].
    apply in_app_or in H. destruct H as [H | [H | []]]; [| discriminate H].
    destruct H as [H | H]; [discriminate H |].
    apply in_app_or in H. destruct H as [H | [H | []]]; [| discriminate H].
    apply afterLookup_request in H. exact H. }
  split.
  { intros ws1 w ws2 c now st' Hw.
    revert st'. induction ws1 as [| x ws1 IH]; intros st'.
    - cbn [app deliverAll]. rewrite Hw. cbn [negb]. unfold bind, ret.
      destruct (deliverAll s c event document now ws2 st') as [[[] st1] t1].
      reflexivity.
    - cbn [app deliverAll]. unfold bind.
      destruct ((if negb (subscribed x event) then ret tt
                 else go (executeWebhook s c (database.URL x)
                            (database.Secret x)
                            {| WebhookID := database.ID x; Event := event;
                               CreatedAt := now; Document := document |}))
                  st') as [[u st1] t1].
      rewrite IH. reflexivity. }
  split.
  { intros webhooks E Hnone. rewrite T.
    destruct (Enabled (cfg s)); [| split; reflexivity].
    rewrite E. unfold afterLookup, deliveries.
    rewrite (filter_none _ webhooks Hnone).
    destruct webhooks; split; reflexivity. }
  intros En. rewrite ExecuteWebhooks_run, En. reflexivity.
Qed.

Lemma only_subscribers_are_tried_witness :
  requestsOf
    (trace (ExecuteWebhooks (Example.server Example.alwaysFails)
              (RequestCtx None) "update" Example.document)
           (Example.state [Example.deleteOnly])) = []
  /\ ExecuteWebhooks Example.off (RequestCtx None) "update" Example.document
       (Example.state [Example.hook]) =
     (tt, Example.state [Example.hook], []).
Proof.
  split.
  - apply (proj1 (proj2 (proj2 (only_subscribers_are_tried
             (Example.server Example.alwaysFails) (RequestCtx None) "update"
             Example.document (Example.state [Example.deleteOnly]))))
             [Example.deleteOnly] eq_refl).
    intros w [<- | []]. reflexivity.
  - apply (proj2 (proj2 (proj2 (only_subscribers_are_tried Example.off
             (RequestCtx None) "update" Example.document
             (Example.state [Example.hook]))))).
    reflexivity.
Defined.

(** ** The secret of a request *)

Lemma lower_upper (c : ascii) :
  strings.lower_byte (strings.upper_byte c) = strings.lower_byte c.
Proof. destruct c as [[] [] [] [] [] [] [] []]; reflexivity. Qed.

Lemma upper_lower (c : ascii) :
  strings.upper_byte (strings.lower_byte c) = strings.upper_byte c.
Proof. destruct c as [[] [] [] [] [] [] [] []]; reflexivity. Qed.

Lemma fold_byte (c d : ascii) :
  Ascii.eqb (strings.lower_byte c) (strings.lower_byte d) =
  Ascii.eqb (strings.upper_byte c) (strings.upper_byte d).
Proof.
  destruct (Ascii.eqb_spec (strings.lower_byte c) (strings.lower_byte d))
    as [E | E];
    destruct (Ascii.eqb_spec (strings.upper_byte c) (strings.upper_byte d))
      as [E' | E'];
    try reflexivity; exfalso.
  - apply E'. rewrite <- (upper_lower c), <- (upper_lower d), E. reflexivity.
  - apply E. rewrite <- (lower_upper c), <- (lower_upper d), E'. reflexivity.
Qed.

(** Comparing the upper-cased strings is comparing without regard to case. *)
Lemma ToUpper_EqualFold (x : string) : forall t : string,
  String.eqb (strings.ToUpper x) (strings.ToUpper t) = strings.EqualFold x t.
Proof.
  induction x as [| c x IH]; intros [| d t]; cbn; try reflexivity.
  rewrite IH, fold_byte. reflexivity.
Qed.

Lemma substring_all (x : string) : substring 0 (String.length x) x = x.
Proof. induction x as [| c x IH]; cbn; [| rewrite IH]; reflexivity. Qed.

Lemma GetWebhookSecret_fold (r : http.Request) :
  GetWebhookSecret r =
  if (7 <? strings.len (http.Authorization r))
     && strings.EqualFold (strings.slice 0 6 (http.Authorization r)) "SECRET"
  then strings.from 7 (http.Authorization r)
  else "".
Proof.
  unfold GetWebhookSecret.
  change "SECRET" with (strings.ToUpper "SECRET") at 1.
  rewrite ToUpper_EqualFold. reflexivity.
Qed.

Section MissingSecret.

Context {St : Type} (s : Server St).

Lemma missing_secret (r : http.Request) (st : State St)
    (h : http.Request -> M St Reply) :
  In h (secretHandlers s) ->
  GetWebhookSecret r = "" ->
  h r st = (ReplyError (BadRequest ErrMissingWebhookSecret), st, []).
Proof.
  intros [<- | [<- | [<- | []]]] E;
    unfold GetDocumentWebhook, PatchDocumentWebhook, DeleteDocumentWebhook;
    rewrite E; reflexivity.
Qed.

End MissingSecret.

(** C10: [GetWebhookSecret] gives what follows the first 7 bytes of the
    Authorization header when the header is longer than 7 bytes and its
    first 6 bytes are "SECRET" in any mix of cases, and the empty string
    otherwise.  The 7th byte is not looked at; the header "Secret " gives
    the empty string; and on an empty result each of the Get, Patch and
    Delete handlers replies BadRequest (missing secret) without a call on
    persistence. *)
Theorem webhook_secret_of_header {St : Type} (s : Server St)
    (r : http.Request) (st : State St) :
  let header := http.Authorization r in
  GetWebhookSecret r =
    (if (7 <? strings.len header)
        && strings.EqualFold (strings.slice 0 6 header) "SECRET"
     then strings.from 7 header
     else "")
  /\ (forall (scheme : string) (seventh : ascii) (secret : string),
        String.length scheme = 6%nat ->
        strings.EqualFold scheme "SECRET" = true ->
        secret <> "" ->
        header = (scheme ++ String seventh secret)%string ->
        GetWebhookSecret r = secret)
  /\ (header = "Secret " -> GetWebhookSecret r = "")
  /\ (GetWebhookSecret r = "" ->
      forall h, In h (secretHandlers s) ->
        h r st = (ReplyError (BadRequest ErrMissingWebhookSecret), st, [])).
Proof.
  intros header.
  split; [apply GetWebhookSecret_fold |].
  split.
  { intros scheme seventh secret Hlen Hfold Hsecret Hheader.
    rewrite GetWebhookSecret_fold. fold header. rewrite Hheader.
    destruct scheme as [| c1 [| c2 [| c3 [| c4 [| c5 [| c6 [| c7 rest]]]]]]];
      try discriminate Hlen.
    destruct secret as [| c secret]; [contradiction |].
    unfold strings.slice, strings.from, strings.len.
    cbn [append String.length Nat.sub substring].
    rewrite Hfold, substring_all.
    match goal with
    | |- context [7 <? ?n] =>
        replace (7 <? n) with true by (symmetry; apply Z.ltb_lt; lia)
    end.
    reflexivity. }
  split.
  { intros Hheader. unfold header in Hheader. unfold GetWebhookSecret.
    rewrite Hheader. reflexivity. }
  intros E h Hh. apply (missing_secret s); assumption.
Qed.

Lemma webhook_secret_of_header_witness :
  GetWebhookSecret (Example.request "secret=s3cret" 0 ("", "", [])) = "s3cret"
  /\ GetDocumentWebhook (Example.server Example.alwaysFails)
       (Example.request "Secret " 0 ("", "", []))
       (Example.state [Example.hook]) =
     (ReplyError (BadRequest ErrMissingWebhookSecret),
      Example.state [Example.hook], []).
Proof.
  split.
  - apply (proj1 (proj2 (webhook_secret_of_header
             (Example.server Example.alwaysFails)
             (Example.request "secret=s3cret" 0 ("", "", []))
             (Example.state []))) "secret" "="%char "s3cret").
    + reflexivity.
    + reflexivity.
    + discriminate.
    + reflexivity.
  - apply (proj2 (proj2 (proj2 (webhook_secret_of_header
             (Example.server Example.alwaysFails)
             (Example.request "Secret " 0 ("", "", []))
             (Example.state [Example.hook]))))).
    + reflexivity.
    + left. reflexivity.
Defined.

(** ** Creating and updating a webhook *)

(** C8: a PATCH whose body has none of url, secret and events is answered
    with BadRequest and never reaches [UpdateWebhook]: no call is made on
    persistence and the state stays as it was.  With the secret of the
    webhook presented, the error is the one naming the three fields. *)
Theorem patch_requires_a_field {St : Type} (s : Server St) (r : http.Request)
    (st : State St) (update : WebhookUpdateRequest) :
  decodeUpdate r = Ok update ->
  wuURL update = "" ->
  wuSecret update = "" ->
  wuEvents update = [] ->
  (exists err,
     PatchDocumentWebhook s r st = (ReplyError (BadRequest err), st, []))
  /\ (GetWebhookSecret r <> "" ->
      PatchDocumentWebhook s r st =
      (ReplyError (BadRequest ErrMissingURLOrSecretOrEvents), st, [])).
Proof.
  intros Hdec Hurl Hsecret Hevents.
  unfold PatchDocumentWebhook. rewrite Hdec, Hurl, Hsecret, Hevents.
  destruct (String.eqb_spec (GetWebhookSecret r) "") as [E | E].
  - split; [eexists; reflexivity | intros N; contradiction].
  - split; [eexists; reflexivity | intros _; reflexivity].
Qed.

Lemma patch_requires_a_field_witness :
  PatchDocumentWebhook (Example.server Example.alwaysFails)
    (Example.request "Secret s3cret" 0 ("", "", []))
    (Example.state [Example.hook]) =
  (ReplyError (BadRequest ErrMissingURLOrSecretOrEvents),
   Example.state [Example.hook], []).
Proof.
  apply (proj2 (patch_requires_a_field (Example.server Example.alwaysFails)
                  (Example.request "Secret s3cret" 0 ("", "", []))
                  (Example.state [Example.hook])
                  {| wuURL := ""; wuSecret := ""; wuEvents := [] |}
                  eq_refl eq_refl eq_refl eq_refl)).
  discriminate.
Defined.

Lemma eqb_empty_false (x : string) : x <> "" -> String.eqb x "" = false.
Proof.
  intros H. destruct (String.eqb_spec x ""); [contradiction | reflexivity].
Qed.

(** C7, as the code orders its checks: a body with an empty url, secret or
    events is answered with BadRequest before anything else, and
    persistence is not reached; with the three fields present, claims
    without the Webhook permission are answered with Forbidden, again
    without a call on persistence; with the fields and the permission
    present the handler makes the one call [CreateWebhook] and replies with
    the created webhook, its generated id included, when that call
    succeeds, and with the error of the call when it fails. *)
Theorem create_checks_fields_then_permission {St : Type} (s : Server St)
    (r : http.Request) (st : State St) (create : WebhookCreateRequest) :
  decodeCreate r = Ok create ->
  let post := PostDocumentWebhook s r in
  let missing :=
    flags.Misses (ClaimPermissions (http.GetClaims r)) (PermissionWebhook s) in
  let call :=
    database.CreateWebhook (http.documentID r) (wcURL create)
      (wcSecret create) (wcEvents create) in
  let created := fst (db s _ call (http.Context_ r) (store st)) in
  (wcURL create = "" \/ wcSecret create = "" \/ wcEvents create = [] ->
     exists err, post st = (ReplyError (BadRequest err), st, []))
  /\ (wcURL create <> "" -> wcSecret create <> "" -> wcEvents create <> [] ->
      (missing = true ->
         post st =
         (ReplyError (Forbidden (ErrPermissionDenied "webhook")), st, []))
      /\ (missing = false ->
          trace post st = [EvDB call (http.Context_ r)]
          /\ (forall webhook, created = Ok webhook ->
                result post st = ReplyOk (Some (webhookResponse webhook))
                /\ rID (webhookResponse webhook) = database.ID webhook)
          /\ (forall err, created = Err err ->
                result post st = ReplyError err))).
Proof.
  intros Hdec post missing call created.
  unfold post, PostDocumentWebhook. rewrite Hdec.
  split.
  - intros [H | [H | H]].
    + rewrite H. eexists; reflexivity.
    + rewrite H. destruct (String.eqb (wcURL create) ""); eexists; reflexivity.
    + rewrite H.
      destruct (String.eqb (wcURL create) ""),
               (String.eqb (wcSecret create) ""); eexists; reflexivity.
  - intros Hurl Hsecret Hevents.
    rewrite (eqb_empty_false _ Hurl), (eqb_empty_false _ Hsecret).
    replace (Z.of_nat (List.length (wcEvents create)) =? 0) with false
      by (destruct (wcEvents create); [contradiction | reflexivity]).
    fold missing. split; intros Hm; rewrite Hm; [reflexivity |].
    fold call. unfold trace, result, bind, db_call.
    fold created.
    assert (E : db s _ call (http.Context_ r) (store st)
                = (created, snd (db s _ call (http.Context_ r) (store st))))
      by (unfold created; destruct (db s _ call (http.Context_ r) (store st));
          reflexivity).
    rewrite E.
    destruct created as [webhook | err]; (split; [reflexivity |]); split.
    + intros w' Hw. injection Hw as <-. split; reflexivity.
    + intros err Herr. discriminate Herr.
    + intros w' Hw. discriminate Hw.
    + intros err' Herr. injection Herr as <-. reflexivity.
Qed.

Lemma create_checks_fields_then_permission_witness :
  PostDocumentWebhook (Example.server Example.alwaysFails)
    (Example.request "" 0 ("https://example.org/hook", "s3cret", ["update"]))
    (Example.state []) =
  (ReplyError (Forbidden (ErrPermissionDenied "webhook")),
   Example.state [], [])
  /\ result (PostDocumentWebhook (Example.server Example.alwaysFails)
       (Example.request "" 8 ("https://example.org/hook", "s3cret", ["update"])))
       (Example.state []) =
     ReplyOk (Some {| rID := "9"; rDocumentKey := "doc";
                      rURL := "https://example.org/hook";
                      rSecret := "s3cret"; rEvents := ["update"] |}).
Proof.
  split.
  - apply (proj2 (create_checks_fields_then_permission
             (Example.server Example.alwaysFails)
             (Example.request "" 0
                ("https://example.org/hook", "s3cret", ["update"]))
             (Example.state []) _ eq_refl));
      try discriminate; reflexivity.
  - refine (proj1 (proj1 (proj2 (proj2 (proj2
              (create_checks_fields_then_permission
                 (Example.server Example.alwaysFails)
                 (Example.request "" 8
                    ("https://example.org/hook", "s3cret", ["update"]))
                 (Example.state []) _ eq_refl) _ _ _) eq_refl)) _ eq_refl));
      discriminate.
Defined.

(** C7 as stated fails twice.  A request with an empty url and without the
    permission is answered with BadRequest, not Forbidden; and a request
    with all fields and the permission gets the error of persistence, not a
    webhook, when [CreateWebhook] fails. *)
Lemma create_not_as_stated :
  ~ createAsStated (Example.server Example.alwaysFails)
      (Example.request "" 0 ("", "s3cret", ["update"])) (Example.state [])
  /\ ~ createAsStated (Example.server Example.alwaysFails)
         (Example.request "" 8
            ("https://example.org/hook", "s3cret", ["update"]))
         Example.brokenState.
Proof.
  split; intros H.
  - destruct (H _ eq_refl) as (_ & F & _).
    destruct F as [err F]; [reflexivity | discriminate F].
  - destruct (H _ eq_refl) as (_ & _ & C).
    destruct C as [webhook C].
    + cbn. intros [E | [E | E]]; discriminate E.
    + cbn. discriminate.
    + discriminate C.
Qed.

(** ** Presenting the secret of a webhook *)

Section Denied.

Context {St : Type} (s : Server St) (r : http.Request).

(** A call answered with "no rows", as a handler sees it. *)
Lemma db_call_noRows {A} (c : database.Call A) (ctx : Context) (st : State St) :
  noRows (fst (db s A c ctx (store st))) = true ->
  exists err st',
    db_call s c ctx st = (Err err, st', [EvDB c ctx])
    /\ errors.Is_ErrNoRows err = true.
Proof.
  unfold db_call. destruct (db s A c ctx (store st)) as [[v | err] store'];
    cbn [fst noRows]; intros H; [discriminate H |].
  exists err, (Build_State store' (webhookWaitGroup st)).
  split; [reflexivity | exact H].
Qed.

(** A handler whose call is answered with "no rows" replies NotFound. *)
Lemma noRows_NotFound {A} (c : database.Call A) (st : State St)
    (ok : A -> M St Reply) :
  noRows (fst (db s A c (http.Context_ r) (store st))) = true ->
  result
    (res <- db_call s c (http.Context_ r) ;;
     match res with
     | Err err =>
         if errors.Is_ErrNoRows err
         then s_error (NotFound ErrWebhookNotFound)
         else s_error err
     | Ok v => ok v
     end) st
  = ReplyError (NotFound ErrWebhookNotFound).
Proof.
  intros H.
  destruct (db_call_noRows c (http.Context_ r) st H)
    as (err & st' & E & Herr).
  unfold result, bind. rewrite E, Herr. reflexivity.
Qed.

End Denied.

Section DeniedByMemdb.

Context {St : Type} (s : Server St) (r : http.Request).

Local Abbreviation key := (presented r).

Ltac denied H1 H2 :=
  unfold result, trace, final, bind, db_call;
  cbn [db memdb.on store]; unfold memdb.exec, memdb.up;
  cbn [memdb.down memdb.rows]; fold (presented r); rewrite ?H1, ?H2;
  cbn; repeat split; try reflexivity;
  try (intros N; exfalso; apply N; reflexivity).

(** Two stores without a row for the presented triple cannot be told apart
    through a handler, which leaves them as they are. *)
Lemma memdb_denied (rows1 rows2 : list database.Webhook) (n : nat) (wg : Z)
    (h : http.Request -> M memdb.Store Reply) :
  In h (secretHandlers (memdb.on s)) ->
  find key rows1 = None ->
  find key rows2 = None ->
  let st1 := Build_State (memdb.up rows1 n) wg in
  let st2 := Build_State (memdb.up rows2 n) wg in
  result (h r) st1 = result (h r) st2
  /\ trace (h r) st1 = trace (h r) st2
  /\ final (h r) st1 = st1
  /\ (trace (h r) st1 <> [] ->
      result (h r) st1 = ReplyError (NotFound ErrWebhookNotFound)).
Proof.
  intros Hh H1 H2 st1 st2. unfold st1, st2.
  destruct Hh as [<- | [<- | [<- | []]]];
    unfold GetDocumentWebhook, PatchDocumentWebhook, DeleteDocumentWebhook;
    destruct (String.eqb (GetWebhookSecret r) ""); try solve [denied H1 H2].
  destruct (decodeUpdate r) as [u | e]; [| denied H1 H2].
  destruct (String.eqb (wuURL u) "" && String.eqb (wuSecret u) ""
            && (Z.of_nat (List.length (wuEvents u)) =? 0)); denied H1 H2.
Qed.

Lemma wrong_secret_no_row (stored : database.Webhook)
    (others : list database.Webhook) :
  database.Secret stored <> GetWebhookSecret r ->
  (forall w, In w others ->
     memdb.identified (http.documentID r) (http.webhookID r) w = false) ->
  find key (stored :: others) = None /\ find key others = None.
Proof.
  intros Hsecret Hothers.
  assert (O : find key others = None).
  { induction others as [| w ws IH]; [reflexivity |]. cbn [find].
    pose proof (Hothers w (or_introl eq_refl)) as Hw.
    unfold presented at 1, memdb.keyed. unfold memdb.identified in Hw.
    rewrite Hw.
    cbn [andb]. apply IH. intros x Hx. apply Hothers. right. exact Hx. }
  split; [| exact O]. cbn [find]. unfold presented at 1, memdb.keyed.
  destruct (String.eqb_spec (database.Secret stored) (GetWebhookSecret r));
    [contradiction |].
  rewrite andb_false_r. exact O.
Qed.

End DeniedByMemdb.

(** A handler that goes on to a call on persistence leaves a trace. *)
Lemma reaches_persistence {St A B} (s : Server St) (c : database.Call A)
    (ctx : Context) (k : Result A -> M St B) (st : State St) :
  trace (bind (db_call s c ctx) k) st <> [].
Proof.
  unfold trace, bind, db_call.
  destruct (db s A c ctx (store st)) as [res store'].
  destruct (k res _) as [[b st2] t2]. discriminate.
Qed.



(** * Further properties of the dispatcher *)

(** ** The first try *)

(** A product with the float of 0 is a zero or not a number, whatever the
    other factor is. *)
Lemma mul_zero (x : float) :
  match Prim2SF (PrimFloat.mul x (float64.of_int 0)) with
  | S754_zero _ | S754_nan => True
  | _ => False
  end.
Proof.
  rewrite mul_spec.
  change (Prim2SF (float64.of_int 0)) with (S754_zero false).
  unfold SF64mul, SFmul. destruct (Prim2SF x); exact I.
Qed.

Lemma rawBackoff_first {St : Type} (s : Server St) : rawBackoff s 0 <= 0.
Proof.
  unfold rawBackoff, float64.to_int64.
  pose proof (mul_zero (PrimFloat.mul (BackoffFactor (cfg s))
                          (float64.of_int (Backoff (cfg s))))) as H.
  destruct (Prim2SF _); try contradiction; unfold float64.minInt64; lia.
Qed.

(** X1: the first try of a delivery is never delayed, whatever the
    configuration is: with the index 0 as a factor the product of line 176
    is zero, or not a number for an infinite or undefined
    [BackoffFactor], and neither is above a nanosecond.  So a delivery that
    tries at all begins with try 0. *)
Theorem first_try_not_delayed {St : Type} (s : Server St) (ctx : Context)
    (url secret : string) (request : WebhookEventRequest) (st : State St) :
  trace (sleepBackoff s 0) st = []
  /\ (timeline (trace (executeWebhook s ctx url secret request) st) = []
      \/ exists rest,
           timeline (trace (executeWebhook s ctx url secret request) st)
           = TickTry 0 :: rest).
Proof.
  pose proof (rawBackoff_first s) as R.
  assert (P : pause s 0 = []).
  { unfold pause. destruct (Z.ltb_spec time.Nanosecond (rawBackoff s 0));
      [unfold time.Nanosecond in *; lia | reflexivity]. }
  split.
  { unfold trace. rewrite sleepBackoff_run. exact P. }
  unfold trace. rewrite executeWebhook_run. cbn [snd].
  unfold delivery.
  destruct (json_EncodeError s request); [left; reflexivity |].
  destruct (url_Valid s url); [| left; reflexivity].
  unfold triesMade.
  destruct (Z.to_nat (MaxTries (cfg s))) as [| n].
  - left. cbn [indices throughFirst flat_map app].
    destruct (delivered s _); reflexivity.
  - right. cbn [indices throughFirst].
    set (rq := requestFor s ctx url secret request).
    destruct (succeeds s rq 0); cbn [flat_map]; unfold turn at 1; rewrite P;
      cbn [app timeline flat_map tickOf]; eexists; reflexivity.
Qed.

(** ** The time a delivery sleeps *)

Lemma sleptOf_app (a b : list Effect) :
  sleptOf (a ++ b) = sleptOf a + sleptOf b.
Proof.
  unfold sleptOf. induction a as [| e a IH]; cbn [app fold_right]; [lia |].
  destruct e; lia.
Qed.

Lemma sleptOf_nonneg (t : list Effect) : 0 <= sleptOf t.
Proof.
  unfold sleptOf. induction t as [| e t IH]; cbn [fold_right]; [lia |].
  destruct e; lia.
Qed.

Section Sleeping.

Context {St : Type} (s : Server St).

Lemma pause_first : pause s 0 = [].
Proof.
  pose proof (rawBackoff_first s) as R. unfold pause.
  destruct (Z.ltb_spec time.Nanosecond (rawBackoff s 0));
    [unfold time.Nanosecond in *; lia | reflexivity].
Qed.

Lemma sleptOf_turn (rq : http.OutRequest) (i : Z) :
  sleptOf (turn s rq i) <= Z.max 0 (MaxBackoff (cfg s)).
Proof.
  unfold turn, pause. rewrite sleptOf_app.
  destruct (time.Nanosecond <? rawBackoff s i); cbn; lia.
Qed.

Lemma sleptOf_turn_first (rq : http.OutRequest) : sleptOf (turn s rq 0) = 0.
Proof. unfold turn. rewrite pause_first. reflexivity. Qed.

Lemma sleptOf_turns (rq : http.OutRequest) (l : list Z) :
  sleptOf (flat_map (turn s rq) l)
  <= Z.of_nat (List.length l) * Z.max 0 (MaxBackoff (cfg s)).
Proof.
  induction l as [| i l IH]; cbn [flat_map List.length]; [cbn; lia |].
  rewrite sleptOf_app. pose proof (sleptOf_turn rq i). nia.
Qed.

(** A sleep found in a delivery is the capped backoff of one of its tries,
    and not of the first. *)
Lemma delivery_sleep (ctx : Context) (url secret : string)
    (request : WebhookEventRequest) (d : Duration) :
  In (EvSleep d) (delivery s ctx url secret request) ->
  exists i,
    1 <= i < MaxTries (cfg s)
    /\ time.Nanosecond < rawBackoff s i
    /\ d = Z.min (MaxBackoff (cfg s)) (rawBackoff s i).
Proof.
  unfold delivery. cbn [In]. intros [H | H]; [discriminate H |].
  apply in_app_or in H. destruct H as [H | [H | []]]; [| discriminate H].
  destruct (json_EncodeError s request).
  { destruct H as [H | [H | []]]; discriminate H. }
  destruct (url_Valid s url).
  2: { destruct H as [H | [H | []]]; discriminate H. }
  apply in_app_or in H. destruct H as [H | H].
  - apply in_flat_map in H. destruct H as [j [Hj H]].
    unfold turn, pause in H. apply in_app_or in H. destruct H as [H | H].
    + destruct (Z.ltb_spec time.Nanosecond (rawBackoff s j)) as [L | L];
        [| destruct H].
      destruct H as [H | [H | []]]; [discriminate H |].
      injection H as <-. exists j. repeat split; try assumption.
      * destruct (Z.eq_dec j 0) as [-> | N].
        -- pose proof (rawBackoff_first s). unfold time.Nanosecond in L. lia.
        -- assert (In j (indices (Z.to_nat (MaxTries (cfg s))) 0)) as Hin.
           { unfold triesMade in Hj. clear - Hj.
             revert Hj. generalize (indices (Z.to_nat (MaxTries (cfg s))) 0).
             intros l. induction l as [| x l IH]; cbn; [tauto |].
             destruct (succeeds s _ x); cbn; tauto. }
           apply indices_In in Hin. lia.
      * assert (In j (indices (Z.to_nat (MaxTries (cfg s))) 0)) as Hin.
        { unfold triesMade in Hj. clear - Hj.
          revert Hj. generalize (indices (Z.to_nat (MaxTries (cfg s))) 0).
          intros l. induction l as [| x l IH]; cbn; [tauto |].
          destruct (succeeds s _ x); cbn; tauto. }
        apply indices_In in Hin. lia.
    + destruct H as [H | [H | []]]; discriminate H.
  - destruct (delivered s _); [destruct H |].
    destruct H as [H | [H | []]]; discriminate H.
Qed.

Lemma delivery_slept (ctx : Context) (url secret : string)
    (request : WebhookEventRequest) :
  sleptOf (delivery s ctx url secret request)
  <= Z.max 0 (MaxTries (cfg s) - 1) * Z.max 0 (MaxBackoff (cfg s)).
Proof.
  unfold delivery.
  change (sleptOf (EvLog ?l ?m :: ?t)) with (sleptOf t).
  rewrite sleptOf_app.
  change (sleptOf [EvSpanEnd "executeWebhook"]) with 0.
  destruct (json_EncodeError s request); [cbn; nia |].
  destruct (url_Valid s url); [| cbn; nia].
  rewrite sleptOf_app.
  replace (sleptOf (if delivered s _ then [] else _)) with 0
    by (destruct (delivered s _); reflexivity).
  unfold triesMade.
  destruct (Z.to_nat (MaxTries (cfg s))) as [| n] eqn:E;
    [cbn; nia |].
  cbn [indices throughFirst].
  set (rq := requestFor s ctx url secret request).
  assert (B : sleptOf (flat_map (turn s rq)
                         (throughFirst (succeeds s rq) (indices n (0 + 1))))
              <= Z.of_nat n * Z.max 0 (MaxBackoff (cfg s))).
  { pose proof (sleptOf_turns rq
                  (throughFirst (succeeds s rq) (indices n (0 + 1)))) as T.
    pose proof (throughFirst_length (succeeds s rq) (indices n (0 + 1))) as L.
    rewrite indices_length in L. nia. }
  assert (N : Z.of_nat n = MaxTries (cfg s) - 1) by lia.
  destruct (succeeds s rq 0); cbn [flat_map]; rewrite ?sleptOf_app;
    rewrite sleptOf_turn_first.
  - cbn. nia.
  - replace (Z.max 0 (MaxTries (cfg s) - 1)) with (Z.of_nat n) by lia. lia.
Qed.

End Sleeping.

(** X2: every sleep of a delivery is the backoff of one of the tries after
    the first, capped at [MaxBackoff]; so a delivery never sleeps longer
    than (MaxTries - 1) times [MaxBackoff] in all, and not at all with one
    try or with a cap that is not positive. *)
Theorem delivery_sleep_bounded {St : Type} (s : Server St) (ctx : Context)
    (url secret : string) (request : WebhookEventRequest) (st : State St) :
  let t := trace (executeWebhook s ctx url secret request) st in
  (forall d, In (EvSleep d) t ->
     d <= MaxBackoff (cfg s)
     /\ exists i, 1 <= i < MaxTries (cfg s)
                  /\ time.Nanosecond < rawBackoff s i
                  /\ d = Z.min (MaxBackoff (cfg s)) (rawBackoff s i))
  /\ 0 <= sleptOf t
       <= Z.max 0 (MaxTries (cfg s) - 1) * Z.max 0 (MaxBackoff (cfg s)).
Proof.
  intros t. unfold t, trace. rewrite executeWebhook_run. cbn [snd].
  split.
  - intros d H. apply delivery_sleep in H. destruct H as (i & Hi & Hr & ->).
    split; [lia |]. exists i. repeat split; try lia; assumption.
  - split; [apply sleptOf_nonneg | apply delivery_slept].
Qed.

Lemma delivery_sleep_bounded_witness :
  300000000 <= 300000000
  /\ exists i, 1 <= i < 3
               /\ 1 < rawBackoff (Example.server Example.alwaysFails) i
               /\ 300000000 =
                  Z.min 300000000
                        (rawBackoff (Example.server Example.alwaysFails) i).
Proof.
  apply (proj1 (delivery_sleep_bounded (Example.server Example.alwaysFails)
                  Background "https://example.org/hook" "s3cret"
                  Example.eventRequest (Example.state [])) 300000000).
  vm_compute. tauto.
Defined.

(** ** What a delivery sends *)

(** The header the dispatcher writes is read back by [GetWebhookSecret]. *)
Lemma GetWebhookSecret_of_sent (r : http.Request) (secret : string) :
  http.Authorization r = ("Secret " ++ secret)%string ->
  GetWebhookSecret r = secret.
Proof.
  intros H. unfold GetWebhookSecret. rewrite H.
  destruct secret as [| c secret]; [reflexivity |].
  unfold strings.slice, strings.from, strings.len.
  cbn [append String.length Nat.sub substring strings.ToUpper].
  rewrite substring_all.
  match goal with
  | |- context [7 <? ?n] =>
      replace (7 <? n) with true by (symmetry; apply Z.ltb_lt; lia)
  end.
  reflexivity.
Qed.

(** X3: every try of a delivery hands [Do] a POST to the URL of the
    webhook, under the context of the task, with the JSON content type,
    the user agent "gobin/" and the version, and the Authorization header
    "Secret " and the secret of the webhook; read with [GetWebhookSecret],
    that header gives the secret back, whatever the secret is.  The first
    try is sent over the buffer holding the event request.  (Later tries
    are sent over the same buffer, which an answered try has read to its
    end; nothing is said of their body.) *)
Theorem delivery_request_shape {St : Type} (s : Server St) (ctx : Context)
    (url secret : string) (request : WebhookEventRequest) (st : State St)
    (rq : http.OutRequest) (i : Z) :
  In (EvDo rq i) (trace (executeWebhook s ctx url secret request) st) ->
  http.Method rq = "POST"
  /\ http.Url rq = url
  /\ http.Ctx rq = WithSpan ctx "executeWebhook"
  /\ Header_Get rq "Content-Type" = "application/json"
  /\ Header_Get rq "User-Agent" = ("gobin/" ++ version s)%string
  /\ Header_Get rq "Authorization" = ("Secret " ++ secret)%string
  /\ (forall r : http.Request,
        http.Authorization r = Header_Get rq "Authorization" ->
        GetWebhookSecret r = secret)
  /\ (i = 0 -> http.Body rq = request).
Proof.
  unfold trace. rewrite executeWebhook_run. cbn [snd]. intros H.
  pose proof (delivery_request s _ _ _ _ _ _ H) as ->.
  repeat split.
  intros r Hr. apply GetWebhookSecret_of_sent. exact Hr.
Qed.

Lemma delivery_request_shape_witness :
  GetWebhookSecret
    (Example.request "Secret s3cret" 0 ("", "", [])) = "s3cret".
Proof.
  assert (H : In (EvDo (requestFor (Example.server Example.alwaysFails)
                          Background "https://example.org/hook" "s3cret"
                          Example.eventRequest) 0)
                 (trace (executeWebhook (Example.server Example.alwaysFails)
                           Background "https://example.org/hook" "s3cret"
                           Example.eventRequest) (Example.state [])))
    by (vm_compute; tauto).
  exact (proj1 (proj2 (proj2 (proj2 (proj2 (proj2 (proj2
           (delivery_request_shape (Example.server Example.alwaysFails)
              Background "https://example.org/hook" "s3cret"
              Example.eventRequest (Example.state []) _ 0 H)))))))
           (Example.request "Secret s3cret" 0 ("", "", [])) eq_refl).
Defined.

(** ** The outcome of a delivery *)

Lemma existsb_throughFirst {A} (p : A -> bool) (l : list A) :
  existsb p (throughFirst p l) = existsb p l.
Proof.
  induction l as [| x l IH]; cbn; [reflexivity |].
  destruct (p x) eqn:E; cbn; rewrite E; [reflexivity | exact IH].
Qed.

(** X4: a delivery logs an error exactly when it did not get through: no
    error is logged if and only if one of the tries made was answered with
    a 2xx, and otherwise exactly one is; a request that cannot be encoded
    or whose URL does not parse is never tried, the encoding being checked
    first; and the delivery tries at all only if the request could be built
    and [MaxTries] is at least 1. *)
Theorem delivery_logs_its_failure {St : Type} (s : Server St) (ctx : Context)
    (url secret : string) (request : WebhookEventRequest) (st : State St) :
  let t := trace (executeWebhook s ctx url secret request) st in
  let rq := requestFor s ctx url secret request in
  (errorLogs t = [] <->
   exists i, In i (attemptsOf t) /\ succeeds s rq i = true)
  /\ (List.length (errorLogs t) <= 1)%nat
  /\ (forall err, json_EncodeError s request = Some err ->
        attemptsOf t = [] /\ errorLogs t = ["failed to encode document"])
  /\ (json_EncodeError s request = None -> url_Valid s url = false ->
        attemptsOf t = [] /\ errorLogs t = ["failed to create request"])
  /\ (attemptsOf t <> [] <->
      json_EncodeError s request = None /\ url_Valid s url = true
      /\ 1 <= MaxTries (cfg s)).
Proof.
  intros t rq. unfold t, trace. rewrite executeWebhook_run. cbn [snd].
  destruct (json_EncodeError s request) as [e |] eqn:Henc.
  { assert (D : delivery s ctx url secret request =
                [EvLog LevelDebug "emitting webhook";
                 EvSpanError "failed to encode document";
                 EvLog LevelError "failed to encode document";
                 EvSpanEnd "executeWebhook"])
      by (unfold delivery; rewrite Henc; reflexivity).
    rewrite D. cbn.
    split; [split; [intros N; discriminate N | intros (i & [] & _)] |].
    split; [lia |].
    split; [intros err _; split; reflexivity |].
    split; [intros N; discriminate N |].
    split; [intros N; contradiction (N eq_refl)
           | intros (N & _); discriminate N]. }
  destruct (url_Valid s url) eqn:Hurl.
  2: { assert (D : delivery s ctx url secret request =
                   [EvLog LevelDebug "emitting webhook";
                    EvSpanError "failed to create request";
                    EvLog LevelError "failed to create request";
                    EvSpanEnd "executeWebhook"])
         by (unfold delivery; rewrite Henc, Hurl; reflexivity).
       rewrite D. cbn.
       split; [split; [intros N; discriminate N | intros (i & [] & _)] |].
       split; [lia |].
       split; [intros err N; discriminate N |].
       split; [intros _ _; split; reflexivity |].
       split; [intros N; contradiction (N eq_refl)
              | intros (_ & N & _); discriminate N]. }
  rewrite (delivery_attempts s ctx url secret request Henc Hurl).
  rewrite (delivery_errorLogs s ctx url secret request Henc Hurl).
  fold rq.
  assert (Dv : delivered s rq = true <->
               exists i, In i (triesMade s rq) /\ succeeds s rq i = true).
  { unfold delivered, triesMade. rewrite <- existsb_throughFirst.
    apply existsb_exists. }
  split.
  { destruct (delivered s rq).
    - split; [intros _; apply Dv; reflexivity | reflexivity].
    - split; [discriminate |].
      intros H. apply Dv in H. discriminate H. }
  split; [destruct (delivered s rq); cbn; lia |].
  split; [intros err N; discriminate N |].
  split; [intros _ N; discriminate N |].
  unfold triesMade.
  destruct (Z.to_nat (MaxTries (cfg s))) as [| n] eqn:E.
  - cbn. split; [intros N; contradiction | intros (_ & _ & N); lia].
  - cbn [indices throughFirst]. split.
    + intros _. repeat split. lia.
    + intros _. destruct (succeeds s rq 0); discriminate.
Qed.

Lemma delivery_logs_its_failure_witness :
  attemptsOf
    (trace (executeWebhook (Example.server Example.alwaysFails) Background
              "" "s3cret" Example.eventRequest) (Example.state [])) = []
  /\ errorLogs
       (trace (executeWebhook (Example.server Example.alwaysFails) Background
                 "" "s3cret" Example.eventRequest) (Example.state []))
     = ["failed to create request"].
Proof.
  apply (proj1 (proj2 (proj2 (proj2 (delivery_logs_its_failure
           (Example.server Example.alwaysFails) Background "" "s3cret"
           Example.eventRequest (Example.state [])))))); reflexivity.
Defined.

(** ** The cost of a dispatch *)

Section Cost.

Context {St : Type} (s : Server St).

Lemma delivery_attempts_le (ctx : Context) (url secret : string)
    (request : WebhookEventRequest) :
  (List.length (attemptsOf (delivery s ctx url secret request))
   <= Z.to_nat (MaxTries (cfg s)))%nat.
Proof.
  destruct (json_EncodeError s request) as [e |] eqn:Henc.
  { unfold delivery. rewrite Henc. cbn. lia. }
  destruct (url_Valid s url) eqn:Hurl.
  2: { unfold delivery. rewrite Henc, Hurl. cbn. lia. }
  rewrite (delivery_attempts s ctx url secret request Henc Hurl).
  unfold triesMade.
  pose proof (throughFirst_length
                (succeeds s (requestFor s ctx url secret request))
                (indices (Z.to_nat (MaxTries (cfg s))) 0)) as L.
  rewrite indices_length in L. exact L.
Qed.

Lemma deliveries_cost (ctx : Context) (event : string)
    (document : WebhookDocument) (webhooks : list database.Webhook) :
  let n := Z.of_nat (List.length
                       (filter (fun w => subscribed w event) webhooks)) in
  Z.of_nat (List.length
              (attemptsOf (deliveries s ctx event document webhooks)))
  <= n * Z.max 0 (MaxTries (cfg s))
  /\ sleptOf (deliveries s ctx event document webhooks)
     <= n * (Z.max 0 (MaxTries (cfg s) - 1) * Z.max 0 (MaxBackoff (cfg s))).
Proof.
  unfold deliveries.
  induction (filter (fun w => subscribed w event) webhooks) as [| w l IH];
    cbn [flat_map List.length]; [cbn; lia |].
  cbv zeta in IH. destruct IH as [IH1 IH2].
  unfold attemptsOf in *. rewrite flat_map_app, length_app, sleptOf_app.
  pose proof (delivery_attempts_le ctx (database.URL w) (database.Secret w)
                (payload s event document w)) as A.
  pose proof (delivery_slept s ctx (database.URL w) (database.Secret w)
                (payload s event document w)) as B.
  unfold attemptsOf in A. split; nia.
Qed.

End Cost.

(** X5: a dispatch whose lookup gave the list [webhooks] makes at most
    [MaxTries] tries for each webhook of the list subscribed to the event,
    and sleeps at most (MaxTries - 1) times [MaxBackoff] for each of
    them. *)
Theorem dispatch_cost_bounded {St : Type} (s : Server St) (ctx : Context)
    (event : string) (document : WebhookDocument) (st : State St)
    (webhooks : list database.Webhook) :
  let t := trace (ExecuteWebhooks s ctx event document) st in
  let detached := WithSpan (WithoutCancel ctx) "executeWebhooks" in
  let n := Z.of_nat (List.length
                       (filter (fun w => subscribed w event) webhooks)) in
  fst (db s _ (lookup event document)
         (WithTimeout detached (Timeout (cfg s))) (store st)) = Ok webhooks ->
  Z.of_nat (List.length (attemptsOf t)) <= n * Z.max 0 (MaxTries (cfg s))
  /\ sleptOf t
     <= n * (Z.max 0 (MaxTries (cfg s) - 1) * Z.max 0 (MaxBackoff (cfg s))).
Proof.
  intros t detached n Hlook.
  pose proof (deliveries_cost s detached event document webhooks) as [C1 C2].
  fold n in C1, C2.
  assert (N : 0 <= n) by (unfold n; lia).
  clearbody n.
  assert (P1 : 0 <= n * Z.max 0 (MaxTries (cfg s)))
    by (apply Z.mul_nonneg_nonneg; lia).
  assert (P2 : 0 <= n * (Z.max 0 (MaxTries (cfg s) - 1)
                         * Z.max 0 (MaxBackoff (cfg s))))
    by (repeat apply Z.mul_nonneg_nonneg; lia).
  unfold t, trace. rewrite ExecuteWebhooks_run.
  destruct (Enabled (cfg s)).
  2: { cbn [snd]. change (attemptsOf []) with (@nil Z).
       change (sleptOf []) with 0. cbn [List.length Z.of_nat].
       split; assumption. }
  cbv zeta. cbn [snd]. fold detached. rewrite Hlook.
  unfold afterLookup.
  destruct webhooks as [| w ws].
  - cbn [app]. change (sleptOf ?x) with 0.
    cbn [attemptsOf flat_map app List.length Z.of_nat].
    split; assumption.
  - set (D := deliveries s detached event document (w :: ws)) in *.
    change (attemptsOf
              (EvWaitGroupAdd 1
               :: (EvDB (lookup event document)
                        (WithTimeout detached (Timeout (cfg s)))
                   :: (D ++ [EvLog LevelDebug "finished emitting webhooks"])
                   ++ [EvWaitGroupDone])
               ++ [EvSpanEnd "executeWebhooks"]))
      with (attemptsOf
              (((D ++ [EvLog LevelDebug "finished emitting webhooks"])
                ++ [EvWaitGroupDone]) ++ [EvSpanEnd "executeWebhooks"])).
    change (sleptOf
              (EvWaitGroupAdd 1
               :: (EvDB (lookup event document)
                        (WithTimeout detached (Timeout (cfg s)))
                   :: (D ++ [EvLog LevelDebug "finished emitting webhooks"])
                   ++ [EvWaitGroupDone])
               ++ [EvSpanEnd "executeWebhooks"]))
      with (sleptOf
              (((D ++ [EvLog LevelDebug "finished emitting webhooks"])
                ++ [EvWaitGroupDone]) ++ [EvSpanEnd "executeWebhooks"])).
    unfold attemptsOf in *. rewrite !flat_map_app, !sleptOf_app.
    cbn [flat_map app sleptOf fold_right]. rewrite !app_nil_r. lia.
Qed.

Lemma dispatch_cost_bounded_witness :
  Z.of_nat (List.length
              (attemptsOf
                 (trace (ExecuteWebhooks (Example.server Example.alwaysFails)
                           (RequestCtx None) "update" Example.document)
                        (Example.state [Example.deleteOnly; Example.hook]))))
  <= 1 * 3.
Proof.
  apply (dispatch_cost_bounded (Example.server Example.alwaysFails)
           (RequestCtx None) "update" Example.document
           (Example.state [Example.deleteOnly; Example.hook])
           [Example.deleteOnly; Example.hook] eq_refl).
Defined.

(** ** The events of a webhook *)

Lemma string_app_assoc (x y z : string) :
  ((x ++ y) ++ z = x ++ (y ++ z))%string.
Proof. induction x as [| c x IH]; cbn; [| rewrite IH]; reflexivity. Qed.

Lemma string_app_nil (x : string) : (x ++ "")%string = x.
Proof. induction x as [| c x IH]; cbn; [| rewrite IH]; reflexivity. Qed.

Lemma rev_string_acc (x : string) : forall acc : string,
  strings.rev_string acc x = (strings.rev_string "" x ++ acc)%string.
Proof.
  induction x as [| c x IH]; intros acc; cbn [strings.rev_string];
    [reflexivity |].
  rewrite (IH (String c acc)), (IH (String c "")).
  rewrite string_app_assoc. reflexivity.
Qed.

Lemma rev_string_rev (x : string) : forall a b : string,
  strings.rev_string a (strings.rev_string b x)
  = strings.rev_string (x ++ a)%string b.
Proof.
  induction x as [| c x IH]; intros a b; cbn [strings.rev_string append];
    [reflexivity |].
  rewrite IH. reflexivity.
Qed.

Lemma splitAcc_not_nil (x cur : string) : strings.splitAcc "," x cur <> [].
Proof.
  revert cur. induction x as [| c x IH]; intros cur; cbn [strings.splitAcc];
    [discriminate |].
  destruct (Ascii.eqb c ","); [discriminate | apply IH].
Qed.

(** Joining the fields with commas gives the string back. *)
Lemma concat_splitAcc (x : string) : forall cur : string,
  String.concat "," (strings.splitAcc "," x cur)
  = (strings.rev_string "" cur ++ x)%string.
Proof.
  induction x as [| c x IH]; intros cur; cbn [strings.splitAcc].
  - cbn [String.concat]. rewrite string_app_nil. reflexivity.
  - destruct (Ascii.eqb_spec c ",") as [-> | N].
    + pose proof (splitAcc_not_nil x "") as NN.
      pose proof (IH "") as E. cbn [strings.rev_string append] in E.
      destruct (strings.splitAcc "," x "") as [| f fs]; [contradiction |].
      cbn [String.concat]. cbn [String.concat] in E. rewrite E.
      reflexivity.
    + rewrite IH. cbn [strings.rev_string].
      rewrite (rev_string_acc cur (String c "")).
      rewrite string_app_assoc. reflexivity.
Qed.

Lemma splitAcc_fields (x : string) : forall cur : string,
  noComma cur = true ->
  forall f, In f (strings.splitAcc "," x cur) -> noComma f = true.
Proof.
  assert (R : forall y acc, noComma y = true -> noComma acc = true ->
              noComma (strings.rev_string acc y) = true).
  { induction y as [| d y IHy]; intros acc Hy Hacc; cbn [strings.rev_string];
      [exact Hacc |].
    cbn [noComma] in Hy. apply andb_true_iff in Hy. destruct Hy as [Hd Hy].
    apply IHy; [exact Hy |]. cbn [noComma]. rewrite Hd, Hacc. reflexivity. }
  induction x as [| c x IH]; intros cur Hcur f; cbn [strings.splitAcc].
  - intros [<- | []]. apply R; [exact Hcur | reflexivity].
  - destruct (Ascii.eqb c ",") eqn:E.
    + intros [<- | H]; [apply R; [exact Hcur | reflexivity] |].
      apply (IH "" eq_refl f H).
    + apply IH. cbn [noComma]. rewrite E, Hcur. reflexivity.
Qed.

(** A field without a comma is read to its end. *)
Lemma splitAcc_field (f : string) : forall rest cur : string,
  noComma f = true ->
  strings.splitAcc "," (f ++ rest) cur
  = strings.splitAcc "," rest (strings.rev_string cur f).
Proof.
  induction f as [| c f IH]; intros rest cur H; cbn [append];
    [reflexivity |].
  cbn [noComma] in H. apply andb_true_iff in H. destruct H as [Hc Hf].
  cbn [strings.splitAcc strings.rev_string].
  destruct (Ascii.eqb c ","); [discriminate Hc |].
  apply IH. exact Hf.
Qed.

Lemma Split_concat (l : list string) :
  l <> [] ->
  (forall f, In f l -> noComma f = true) ->
  strings.Split (String.concat "," l) "," = l.
Proof.
  unfold strings.Split.
  induction l as [| f l IH]; intros Hne Hall; [contradiction |].
  assert (Hf : noComma f = true) by (apply Hall; left; reflexivity).
  destruct l as [| g l].
  - cbn [String.concat]. rewrite <- (string_app_nil f) at 1.
    rewrite splitAcc_field by exact Hf. cbn [strings.splitAcc].
    rewrite rev_string_rev. cbn [strings.rev_string].
    rewrite string_app_nil. reflexivity.
  - change (String.concat "," (f :: g :: l))
      with (f ++ String "," (String.concat "," (g :: l)))%string.
    rewrite splitAcc_field by exact Hf. cbn [strings.splitAcc Ascii.eqb].
    replace (Ascii.eqb "," ",") with true by reflexivity.
    rewrite rev_string_rev. cbn [strings.rev_string].
    rewrite IH; [| discriminate | intros h Hh; apply Hall; right; exact Hh].
    rewrite string_app_nil. reflexivity.
Qed.

(** X6: the events list of a reply loses nothing of the stored string:
    joined with commas it is the stored string again, and it is never
    empty.  For a row that stores a non-empty list of names without commas
    joined by commas, the reply shows exactly that list and the webhook is
    subscribed to exactly its names; an event name with a comma in it
    matches no webhook at all. *)
Theorem events_read_back (webhook : database.Webhook) :
  String.concat "," (rEvents (webhookResponse webhook))
  = database.Events webhook
  /\ rEvents (webhookResponse webhook) <> []
  /\ (forall event, subscribed webhook event = true -> noComma event = true)
  /\ (forall events : list string,
        events <> [] ->
        (forall f, In f events -> noComma f = true) ->
        database.Events webhook = String.concat "," events ->
        rEvents (webhookResponse webhook) = events
        /\ (forall event,
              subscribed webhook event = true <-> In event events)).
Proof.
  assert (S : forall l event,
            slices.Contains l event = true <-> In event l).
  { intros l event. unfold slices.Contains. rewrite existsb_exists. split.
    - intros (f & Hf & E). apply String.eqb_eq in E. subst f. exact Hf.
    - intros H. exists event. split; [exact H | apply String.eqb_refl]. }
  cbn [webhookResponse rEvents]. unfold strings.Split.
  split; [apply (concat_splitAcc (database.Events webhook) "") |].
  split; [apply splitAcc_not_nil |].
  split.
  - intros event H. unfold subscribed in H. apply S in H.
    apply (splitAcc_fields (database.Events webhook) "" eq_refl event H).
  - intros events Hne Hall E.
    pose proof (Split_concat events Hne Hall) as R. unfold strings.Split in R.
    split; [rewrite E; exact R |].
    intros event. unfold subscribed, strings.Split. rewrite E, R. apply S.
Qed.

Lemma events_read_back_witness :
  rEvents (webhookResponse Example.hook) = ["update"; "delete"]
  /\ (forall event,
        subscribed Example.hook event = true
        <-> In event ["update"; "delete"]).
Proof.
  apply (proj2 (proj2 (proj2 (events_read_back Example.hook)))).
  - discriminate.
  - intros f [<- | [<- | []]]; reflexivity.
  - reflexivity.
Defined.

(** ** The wait group over the life of the server *)

Lemma bind_trace {St A B} (m : M St A) (k : A -> M St B) (st : State St) :
  trace (bind m k) st
  = trace m st ++ trace (k (result m st)) (final m st).
Proof.
  unfold trace, result, final, bind.
  destruct (m st) as [[a st1] t1]. cbn [fst snd].
  destruct (k a st1) as [[b st2] t2]. reflexivity.
Qed.

Lemma bind_final {St A B} (m : M St A) (k : A -> M St B) (st : State St) :
  final (bind m k) st = final (k (result m st)) (final m st).
Proof.
  unfold result, final, bind.
  destruct (m st) as [[a st1] t1]. cbn [fst snd].
  destruct (k a st1) as [[b st2] t2]. reflexivity.
Qed.

Lemma waitGroupSafe_steps (t : list Effect) : forall n : Z,
  waitGroupSafe n t = waitGroupSafe n (waitGroupSteps t).
Proof.
  unfold waitGroupSteps.
  induction t as [| e t IH]; intros n; [reflexivity |].
  destruct e; cbn [waitGroupSafe filter isWaitGroup]; rewrite ?IH;
    reflexivity.
Qed.

Lemma addsOf_steps (t : list Effect) : addsOf t = addsOf (waitGroupSteps t).
Proof.
  unfold waitGroupSteps, addsOf.
  induction t as [| e t IH]; [reflexivity |].
  destruct e; cbn [fold_right filter isWaitGroup]; rewrite ?IH; reflexivity.
Qed.

Lemma donesOf_steps (t : list Effect) : donesOf t = donesOf (waitGroupSteps t).
Proof.
  unfold waitGroupSteps, donesOf.
  induction t as [| e t IH]; [reflexivity |].
  destruct e; cbn [fold_right filter isWaitGroup]; rewrite ?IH; reflexivity.
Qed.

Section Life.

Context {St : Type} (s : Server St).

Ltac handler :=
  unfold trace, final, bind, db_call, ret, s_error, s_ok;
  repeat match goal with
         | |- context [db s ?A ?c ?x ?y] =>
             destruct (db s A c x y) as [[w | err] store']
         | |- context [errors.Is_ErrNoRows ?e] =>
             destruct (errors.Is_ErrNoRows e)
         end;
  split; reflexivity.

Lemma handlers_leave_waitGroup (r : http.Request) (st : State St)
    (h : http.Request -> M St Reply) :
  In h [PostDocumentWebhook s; GetDocumentWebhook s;
        PatchDocumentWebhook s; DeleteDocumentWebhook s] ->
  waitGroupSteps (trace (h r) st) = []
  /\ webhookWaitGroup (final (h r) st) = webhookWaitGroup st.
Proof.
  intros [<- | [<- | [<- | [<- | []]]]].
  - unfold PostDocumentWebhook.
    destruct (decodeCreate r) as [c | e]; [| handler].
    destruct (String.eqb (wcURL c) ""); [handler |].
    destruct (String.eqb (wcSecret c) ""); [handler |].
    destruct (Z.of_nat (List.length (wcEvents c)) =? 0); [handler |].
    destruct (flags.Misses _ _); handler.
  - unfold GetDocumentWebhook.
    destruct (String.eqb (GetWebhookSecret r) ""); handler.
  - unfold PatchDocumentWebhook.
    destruct (String.eqb (GetWebhookSecret r) ""); [handler |].
    destruct (decodeUpdate r) as [u | e]; [| handler].
    destruct (String.eqb (wuURL u) "" && String.eqb (wuSecret u) ""
              && (Z.of_nat (List.length (wuEvents u)) =? 0)); handler.
  - unfold DeleteDocumentWebhook.
    destruct (String.eqb (GetWebhookSecret r) ""); handler.
Qed.

Lemma runOp_steps (op : Op) (st : State St) :
  waitGroupSteps (trace (runOp s op) st) = stepsOf s op
  /\ webhookWaitGroup (final (runOp s op) st) = webhookWaitGroup st.
Proof.
  destruct op as [ctx event document | r | r | r | r];
    cbn [runOp stepsOf].
  2-5: rewrite bind_trace, bind_final; unfold waitGroupSteps;
       rewrite filter_app; cbn [trace final ret snd fst filter app];
       rewrite app_nil_r;
       apply handlers_leave_waitGroup; cbn [In]; tauto.
  unfold trace, final. rewrite ExecuteWebhooks_run.
  destruct (Enabled (cfg s)); [| split; reflexivity].
  cbv zeta. cbn [fst snd webhookWaitGroup].
  set (detached := WithSpan (WithoutCancel ctx) "executeWebhooks").
  set (dbCtx := WithTimeout detached (Timeout (cfg s))).
  set (looked := fst (db s _ (lookup event document) dbCtx (store st))).
  pose proof (ofDelivery_no_waitGroup _
                (afterLookup_ofDelivery s detached event document looked))
    as Q.
  split; [| lia].
  unfold waitGroupSteps in *. cbn [filter isWaitGroup app].
  rewrite <- app_assoc, filter_app, Q. reflexivity.
Qed.

Lemma stepsOf_safe (ops : list Op) : forall n : Z,
  0 <= n ->
  waitGroupSafe n (flat_map (stepsOf s) ops) = true
  /\ addsOf (flat_map (stepsOf s) ops) = donesOf (flat_map (stepsOf s) ops).
Proof.
  induction ops as [| op ops IH]; intros n Hn; [split; reflexivity |].
  cbn [flat_map]. destruct (IH n Hn) as [IH1 IH2].
  rewrite addsOf_app, donesOf_app, IH2.
  destruct op; cbn [stepsOf app]; try (split; [exact IH1 | reflexivity]).
  destruct (Enabled (cfg s)); cbn [app];
    [| split; [exact IH1 | reflexivity]].
  cbn [waitGroupSafe].
  replace (n + 1 - 1) with n by lia.
  replace (0 <=? n + 1) with true by (symmetry; apply Z.leb_le; lia).
  replace (0 <=? n) with true by (symmetry; apply Z.leb_le; lia).
  cbn [andb]. split; [exact IH1 | reflexivity].
Qed.

Lemma runOps_steps (ops : list Op) : forall st : State St,
  waitGroupSteps (trace (runOps s ops) st) = flat_map (stepsOf s) ops
  /\ webhookWaitGroup (final (runOps s ops) st) = webhookWaitGroup st.
Proof.
  induction ops as [| op ops IH]; intros st; [split; reflexivity |].
  cbn [runOps flat_map]. rewrite bind_trace, bind_final.
  destruct (runOp_steps op st) as [R1 R2].
  destruct (IH (final (runOp s op) st)) as [IH1 IH2].
  unfold waitGroupSteps in *. rewrite filter_app, R1, IH1.
  split; [reflexivity | lia].
Qed.

End Life.

(** X7: however notifications and requests for the four webhook routes
    follow one another, the counter of [s.webhookWaitGroup] never becomes
    negative (which would panic), every [Done] coming after its [Add]; the
    adds and the dones are equal in number, one pair for each notification
    with webhooks enabled and none for a request, and once the operations
    are over the counter is where it was. *)
Theorem wait_group_never_negative {St : Type} (s : Server St)
    (ops : list Op) (st : State St) :
  0 <= webhookWaitGroup st ->
  let t := trace (runOps s ops) st in
  waitGroupSafe (webhookWaitGroup st) t = true
  /\ addsOf t = donesOf t
  /\ waitGroupSteps t = flat_map (stepsOf s) ops
  /\ webhookWaitGroup (final (runOps s ops) st) = webhookWaitGroup st.
Proof.
  intros Hn t.
  destruct (runOps_steps s ops st) as [R1 R2]. fold t in R1.
  destruct (stepsOf_safe s ops _ Hn) as [S1 S2].
  rewrite waitGroupSafe_steps, addsOf_steps, donesOf_steps, R1.
  repeat split; assumption.
Qed.

Lemma wait_group_never_negative_witness :
  waitGroupSteps
    (trace (runOps (Example.server Example.alwaysFails)
              [OpNotify (RequestCtx None) "update" Example.document;
               OpGet (Example.request "Secret s3cret" 0 ("", "", []));
               OpNotify (RequestCtx None) "delete" Example.document])
           (Example.state [Example.hook]))
  = [EvWaitGroupAdd 1; EvWaitGroupDone; EvWaitGroupAdd 1; EvWaitGroupDone].
Proof.
  apply (proj1 (proj2 (proj2 (wait_group_never_negative
           (Example.server Example.alwaysFails)
           [OpNotify (RequestCtx None) "update" Example.document;
            OpGet (Example.request "Secret s3cret" 0 ("", "", []));
            OpNotify (RequestCtx None) "delete" Example.document]
           (Example.state [Example.hook]) ltac:(cbn; lia))))).
Defined.

(** ** What reaches persistence *)

Section Checks.

Context {St : Type} (s : Server St) (r : http.Request) (st : State St).

Lemma one_call {A} (c : database.Call A) (k : Result A -> M St Reply) :
  (forall res st', snd (k res st') = []) ->
  trace (bind (db_call s c (http.Context_ r)) k) st
  = [EvDB c (http.Context_ r)].
Proof.
  intros K. unfold trace, bind, db_call.
  destruct (db s A c (http.Context_ r) (store st)) as [res store'].
  pose proof (K res (Build_State store' (webhookWaitGroup st))) as E.
  destruct (k res _) as [[b st2] t2]. cbn [snd] in *. rewrite E. reflexivity.
Qed.

Lemma post_checked :
  Forall (checked s r) (trace (PostDocumentWebhook s r) st)
  /\ (List.length (trace (PostDocumentWebhook s r) st) <= 1)%nat
  /\ (trace (PostDocumentWebhook s r) st <> [] <->
      exists c, decodeCreate r = Ok c
                /\ wcURL c <> "" /\ wcSecret c <> "" /\ wcEvents c <> []
                /\ flags.Has (ClaimPermissions (http.GetClaims r))
                             (PermissionWebhook s) = true).
Proof.
  unfold PostDocumentWebhook.
  destruct (decodeCreate r) as [c | e].
  2: { cbn. split; [constructor | split; [lia |]].
       split; [intros N; contradiction
              | intros (c & N & _); discriminate N]. }
  destruct (String.eqb_spec (wcURL c) "") as [U | U].
  { cbn. split; [constructor | split; [lia |]].
    split; [intros N; contradiction |].
    intros (c' & E & N & _). injection E as <-. contradiction. }
  destruct (String.eqb_spec (wcSecret c) "") as [X | X].
  { cbn. split; [constructor | split; [lia |]].
    split; [intros N; contradiction |].
    intros (c' & E & _ & N & _). injection E as <-. contradiction. }
  destruct (wcEvents c) as [| ev evs] eqn:V.
  { cbn. split; [constructor | split; [lia |]].
    split; [intros N; contradiction |].
    intros (c' & E & _ & _ & N & _). injection E as <-.
    rewrite V in N. contradiction. }
  cbn [List.length Z.of_nat Z.eqb].
  unfold flags.Misses.
  destruct (flags.Has (ClaimPermissions (http.GetClaims r))
                      (PermissionWebhook s)) eqn:P; cbn [negb].
  { rewrite one_call.
    2: { intros [w | err] st'; reflexivity. }
    split; [| split; [cbn; lia |]].
    - constructor; [| constructor]. cbn [checked].
      repeat split; try assumption; discriminate.
    - split; [| discriminate]. intros _. exists c.
      rewrite V. repeat split; try assumption; discriminate. }
  cbn. split; [constructor | split; [lia |]].
  split; [intros N; contradiction |].
  intros (c' & E & _ & _ & _ & N). injection E as <-. discriminate N.
Qed.

Lemma secret_handlers_checked (h : http.Request -> M St Reply) :
  In h (secretHandlers s) ->
  Forall (checked s r) (trace (h r) st)
  /\ (List.length (trace (h r) st) <= 1)%nat.
Proof.
  intros [<- | [<- | [<- | []]]];
    unfold GetDocumentWebhook, PatchDocumentWebhook, DeleteDocumentWebhook;
    destruct (String.eqb_spec (GetWebhookSecret r) "") as [E | E];
    try (cbn; split; [constructor | lia]).
  - rewrite one_call.
    2: { intros [w | err] st'; [reflexivity |].
         destruct (errors.Is_ErrNoRows err); reflexivity. }
    split; [| cbn; lia]. constructor; [| constructor].
    cbn [checked]. repeat split; assumption.
  - destruct (decodeUpdate r) as [u | e];
      [| cbn; split; [constructor | lia]].
    destruct (String.eqb_spec (wuURL u) "") as [U | U];
      destruct (String.eqb_spec (wuSecret u) "") as [X | X];
      destruct (wuEvents u) as [| ev evs] eqn:V;
      cbn [List.length Z.of_nat Z.eqb andb];
      try (cbn; split; [constructor | lia]).
    all: rewrite one_call;
      [| intros [w | err] st'; [reflexivity |];
         destruct (errors.Is_ErrNoRows err); reflexivity].
    all: split; [| cbn; lia]; constructor; [| constructor];
      cbn [checked]; repeat split; try assumption.
    all: first [ left; assumption
               | right; left; assumption
               | right; right; discriminate ].
  - rewrite one_call.
    2: { intros [w | err] st'; [reflexivity |].
         destruct (errors.Is_ErrNoRows err); reflexivity. }
    split; [| cbn; lia]. constructor; [| constructor].
    cbn [checked]. repeat split; assumption.
Qed.

End Checks.

(** X8: a handler calls persistence at most once and only after its
    checks have passed.  [CreateWebhook] is called only for claims with
    the Webhook permission and with a url, a secret and events that are
    not empty, and it is called whenever the body decodes to such a
    request with the permission present; [GetWebhook], [UpdateWebhook] and
    [DeleteWebhook] are called only with the secret of the Authorization
    header, never with an empty one, for the document and the webhook id
    of the route, [UpdateWebhook] only with a field to update; every call
    runs under the context of the request. *)
Theorem persistence_only_after_checks {St : Type} (s : Server St)
    (r : http.Request) (st : State St) :
  (forall h,
     In h [PostDocumentWebhook s; GetDocumentWebhook s;
           PatchDocumentWebhook s; DeleteDocumentWebhook s] ->
     Forall (checked s r) (trace (h r) st)
     /\ (List.length (trace (h r) st) <= 1)%nat)
  /\ (trace (PostDocumentWebhook s r) st <> [] <->
      exists c, decodeCreate r = Ok c
                /\ wcURL c <> "" /\ wcSecret c <> "" /\ wcEvents c <> []
                /\ flags.Has (ClaimPermissions (http.GetClaims r))
                             (PermissionWebhook s) = true).
Proof.
  destruct (post_checked s r st) as (P1 & P2 & P3).
  split; [| exact P3].
  intros h [<- | H]; [split; assumption |].
  apply secret_handlers_checked. exact H.
Qed.

Lemma persistence_only_after_checks_witness :
  Forall (checked (Example.server Example.alwaysFails)
            (Example.request "Secret s3cret" 0 ("", "", ["update"])))
         (trace (PatchDocumentWebhook (Example.server Example.alwaysFails)
                   (Example.request "Secret s3cret" 0 ("", "", ["update"])))
                (Example.state [Example.hook])).
Proof.
  apply (proj1 (persistence_only_after_checks
                  (Example.server Example.alwaysFails)
                  (Example.request "Secret s3cret" 0 ("", "", ["update"]))
                  (Example.state [Example.hook]))).
  right. right. left. reflexivity.
Defined.

(** ** The rhythm of a delivery *)

Lemma delays_wellPaced {St : Type} (s : Server St) (l : list Z) :
  wellPaced (flat_map (fun i => delayBefore s i ++ [TickTry i]) l) = true.
Proof.
  induction l as [| i l IH]; [reflexivity |].
  cbn [flat_map]. unfold delayBefore at 1.
  destruct (rawBackoff s i <=? time.Nanosecond); cbn [app wellPaced];
    exact IH.
Qed.

(** X9: in a delivery every sleep is followed at once by a try: the code
    never sleeps twice in a row and never sleeps after its last try, so
    the failure of a delivery is logged without a further wait. *)
Theorem sleeps_only_before_tries {St : Type} (s : Server St) (ctx : Context)
    (url secret : string) (request : WebhookEventRequest) (st : State St) :
  let ticks := timeline (trace (executeWebhook s ctx url secret request) st) in
  wellPaced ticks = true
  /\ forall d, last ticks (TickTry 0) <> TickSleep d.
Proof.
  intros ticks.
  assert (W : wellPaced ticks = true).
  { unfold ticks, trace. rewrite executeWebhook_run. cbn [snd].
    destruct (json_EncodeError s request) as [e |] eqn:Henc.
    { unfold delivery. rewrite Henc. reflexivity. }
    destruct (url_Valid s url) eqn:Hurl.
    2: { unfold delivery. rewrite Henc, Hurl. reflexivity. }
    rewrite (delivery_timeline s ctx url secret request Henc Hurl).
    apply delays_wellPaced. }
  split; [exact W |].
  clear - W. induction ticks as [| x l IH]; intros d; [discriminate |].
  destruct l as [| y l'].
  - cbn [last]. destruct x; [discriminate W | discriminate].
  - change (last (x :: y :: l') (TickTry 0)) with (last (y :: l') (TickTry 0)).
    apply IH. destruct x; cbn [wellPaced] in W; [| exact W].
    destruct y; [discriminate W | exact W].
Qed.
